(** * Abdullah Slack: the messaging core of [app.py]

    A shallow embedding of the storage-facing functions of [src/app.py]
    (channel and direct messages, the demo conversation overlay,
    reactions, channel membership, the user listing) and of the part of
    the main script that polls and sends.

    Modelling conventions.
    - The hosted table store is a record of tables plus a failure switch
      per table: a call on a table that is down raises, which the Python
      code sees as an exception.  Exceptions are the [Err] branch of
      [res], carrying the text of [str(e)].
    - [st.error] calls are collected as a list of strings next to the
      result: they are the only user-visible error channel of the code.
    - Clock readings ([time.time()], [datetime.utcnow()], the server's
      [now()]) are one integer clock in microseconds; [int(time.time())]
      is the quotient by 10^6 (truncation toward zero, as [int]).
    - A Python [str] is the [string] of its UTF-8 bytes.
    - [st.session_state.demo_messages] is a [gmap] from the conversation
      key [f"{user_id}_{other_user_id}"] to the list of message dicts. *)

From Stdlib Require Import ZArith Ascii String List Sorted.
From stdpp Require Import gmap strings list.
Import ListNotations.
Open Scope Z_scope.
Open Scope string_scope.

(* ------------------------------------------------------------------ *)
(** ** Python string helpers: [str.strip], [str.lower], [in], [str(int)] *)

(** The one-byte whitespace of Python's [str.isspace]: [\t \n \v \f \r]
    (9 to 13), the separators [\x1c] to [\x1f] (28 to 31) and the blank. *)
Definition is_space (c : ascii) : bool :=
  let n := nat_of_ascii c in
  ((Nat.leb 9 n && Nat.leb n 13) || (Nat.leb 28 n && Nat.leb n 32))%bool.

(** The two-byte UTF-8 encodings of the whitespace of [str.isspace]:
    U+0085 ([C2 85]) and U+00A0 ([C2 A0]). *)
Definition is_space2 (a b : ascii) : bool :=
  (Nat.eqb (nat_of_ascii a) 194 &&
   (Nat.eqb (nat_of_ascii b) 133 || Nat.eqb (nat_of_ascii b) 160))%bool.

(** The three-byte UTF-8 encodings of the whitespace of [str.isspace]:
    U+1680 ([E1 9A 80]), U+2000 to U+200A ([E2 80 80] to [E2 80 8A]),
    U+2028, U+2029, U+202F ([E2 80 A8], [E2 80 A9], [E2 80 AF]),
    U+205F ([E2 81 9F]) and U+3000 ([E3 80 80]). *)
Definition is_space3 (a b c : ascii) : bool :=
  let a := nat_of_ascii a in
  let b := nat_of_ascii b in
  let c := nat_of_ascii c in
  ((Nat.eqb a 225 && Nat.eqb b 154 && Nat.eqb c 128) ||
   (Nat.eqb a 226 && Nat.eqb b 128 &&
    ((Nat.leb 128 c && Nat.leb c 138) || Nat.eqb c 168 || Nat.eqb c 169 ||
     Nat.eqb c 175)) ||
   (Nat.eqb a 226 && Nat.eqb b 129 && Nat.eqb c 159) ||
   (Nat.eqb a 227 && Nat.eqb b 128 && Nat.eqb c 128))%bool.

(** Drop whitespace characters at the head of a byte list, a character
    being one byte or the two- or three-byte sequence recognised by
    [sp2], [sp3]. *)
Fixpoint drop_ws (sp2 : ascii -> ascii -> bool) (sp3 : ascii -> ascii -> ascii -> bool)
  (l : list ascii) : list ascii :=
  match l with
  | [] => []
  | a :: l1 =>
      if is_space a then drop_ws sp2 sp3 l1 else
      match l1 with
      | [] => l
      | b :: l2 =>
          if sp2 a b then drop_ws sp2 sp3 l2 else
          match l2 with
          | [] => l
          | c :: l3 => if sp3 a b c then drop_ws sp2 sp3 l3 else l
          end
      end
  end.

(** [lstrip] on the UTF-8 bytes of a text. *)
Definition drop_spaces (l : list ascii) : list ascii := drop_ws is_space2 is_space3 l.

(** The multi-byte whitespace read backwards: the bytes of a character
    come last byte first. *)
Definition is_space2_rev (a b : ascii) : bool := is_space2 b a.
Definition is_space3_rev (a b c : ascii) : bool := is_space3 c b a.

(** [lstrip] on the reversed bytes, i.e. [rstrip] read backwards. *)
Definition drop_spaces_rev (l : list ascii) : list ascii :=
  drop_ws is_space2_rev is_space3_rev l.

(** [s.strip()]: whitespace removed at both ends. *)
Definition strip (s : string) : string :=
  string_of_list_ascii
    (rev (drop_spaces_rev (rev (drop_spaces (list_ascii_of_string s))))).

Definition lower_ascii (c : ascii) : ascii :=
  let n := nat_of_ascii c in
  if (Nat.leb 65 n && Nat.leb n 90)%bool then ascii_of_nat (n + 32) else c.

(** [s.lower()] on the ASCII letters; a non-ASCII character is left as
    it is (Python also lowers non-ASCII capitals). *)
Fixpoint lower (s : string) : string :=
  match s with
  | EmptyString => EmptyString
  | String c s' => String (lower_ascii c) (lower s')
  end.

(** [sub in s]. *)
Fixpoint contains (sub s : string) : bool :=
  (String.prefix sub s ||
   match s with
   | EmptyString => false
   | String _ s' => contains sub s'
   end)%bool.

Fixpoint digits_fuel (fuel : nat) (n : N) (acc : string) : string :=
  match fuel with
  | O => acc
  | S f =>
      let d := ascii_of_N (48 + N.modulo n 10) in
      let q := N.div n 10 in
      if N.eqb q 0 then String d acc else digits_fuel f q (String d acc)
  end.

(** [str(n)] for a Python int. *)
Definition str_of_Z (z : Z) : string :=
  match z with
  | Z0 => "0"
  | Zpos p => digits_fuel (Pos.size_nat p) (Npos p) ""
  | Zneg p => "-" ++ digits_fuel (Pos.size_nat p) (Npos p) ""
  end.

(** [int(time.time())] with the clock in microseconds. *)
Definition unix_second (now_us : Z) : Z := Z.quot now_us 1000000.

(* ------------------------------------------------------------------ *)
(** ** Rows of the tables *)

(** A row of [messages]: [channel_id] is NULL for a direct message,
    [recipient_id] is NULL for a channel message. *)
Record message := mkMessage {
  msg_id : string;
  msg_user : string;
  msg_channel : option string;
  msg_recipient : option string;
  msg_content : string;
  msg_type : string;
  msg_created : Z
}.

(** A row of [user_profiles]. *)
Record profile_row := mkProfile {
  up_id : string;
  up_username : string;
  up_display : string;
  up_avatar : string;
  up_status : string
}.

(** The value stored under ["user_profiles"] when a row is decorated:
    either the profile row found, or a dict with only the two names. *)
Inductive author :=
| Found (p : profile_row)
| Named (display_name username : string).

Definition unknown_user : author := Named "Unknown User" "unknown".

(** A row of [message_reactions]. *)
Record reaction := mkReaction {
  r_message : string;
  r_user : string;
  r_emoji : string
}.

(** A row of [channels]. *)
Record channel_row := mkChannel {
  ch_id : string;
  ch_workspace : string;
  ch_name : string
}.

Inductive table := TMessages | TProfiles | TReactions | TMembers | TChannels.

(** The hosted table store. [members] is [channel_members] as
    [(user_id, channel_id)] pairs. *)
Record store := mkStore {
  messages : list message;
  profiles : list profile_row;
  reactions : list reaction;
  members : list (string * string);
  channels : list channel_row;
  next_id : N;
  down : table -> bool
}.

Definition set_messages (s : store) (l : list message) : store :=
  mkStore l (profiles s) (reactions s) (members s) (channels s) (next_id s) (down s).
Definition set_reactions (s : store) (l : list reaction) : store :=
  mkStore (messages s) (profiles s) l (members s) (channels s) (next_id s) (down s).
Definition set_members (s : store) (l : list (string * string)) : store :=
  mkStore (messages s) (profiles s) (reactions s) l (channels s) (next_id s) (down s).

Inductive res (A : Type) := Ok (a : A) | Err (e : string).
Arguments Ok {A} a.
Arguments Err {A} e.

Definition conn_error : string := "connection error: service unavailable".
Definition dup_error : string :=
  "duplicate key value violates unique constraint".

(* ------------------------------------------------------------------ *)
(** ** The table store: select, order, limit, insert *)

Definition opt_eqb (a b : option string) : bool :=
  match a, b with
  | None, None => true
  | Some x, Some y => String.eqb x y
  | _, _ => false
  end.

(** [.order("created_at", desc=False)]: ascending by [created_at], with no
    tiebreak, so the database may return rows with equal [created_at] in
    any order.  The model returns them in the store's row order; as the
    theorems quantify over every store, that order stands for whichever
    one the database picks, and the claims' statements do not depend on
    it. *)
Fixpoint ins_created (m : message) (l : list message) : list message :=
  match l with
  | [] => [m]
  | x :: l' => if Z.ltb (msg_created m) (msg_created x) then m :: l
               else x :: ins_created m l'
  end.

Definition order_by_created (l : list message) : list message :=
  fold_left (fun acc m => ins_created m acc) l [].

(** [select * from messages where channel_id = ch
     order by created_at asc limit lim]. *)
Definition q_channel_messages (s : store) (ch : string) (lim : nat)
  : res (list message) :=
  if down s TMessages then Err conn_error
  else Ok (firstn lim (order_by_created
             (List.filter (fun m => opt_eqb (msg_channel m) (Some ch)) (messages s)))).

(** The direct-message filter of [get_direct_messages]:
    [channel_id is null] and the author/recipient pair in either
    direction. *)
Definition is_dm_between (a b : string) (m : message) : bool :=
  (opt_eqb (msg_channel m) None &&
   ((String.eqb (msg_user m) a && opt_eqb (msg_recipient m) (Some b)) ||
    (String.eqb (msg_user m) b && opt_eqb (msg_recipient m) (Some a))))%bool.

Definition q_direct_messages (s : store) (a b : string) (lim : nat)
  : res (list message) :=
  if down s TMessages then Err conn_error
  else Ok (firstn lim (order_by_created (List.filter (is_dm_between a b) (messages s)))).

(** [select * from user_profiles where id = uid]. *)
Definition q_profile (s : store) (uid : string) : res (list profile_row) :=
  if down s TProfiles then Err conn_error
  else Ok (List.filter (fun p => String.eqb (up_id p) uid) (profiles s)).

(** [insert into messages]: the server assigns [id] and [created_at]. *)
Definition insert_message (s : store) (uid : string) (ch rc : option string)
  (content : string) (now : Z) : res (message * store) :=
  if down s TMessages then Err conn_error
  else
    let m := mkMessage ("msg-" ++ str_of_Z (Z.of_N (next_id s))) uid ch rc
               content "text" now in
    Ok (m, mkStore (app (messages s) [m]) (profiles s) (reactions s) (members s)
                   (channels s) (N.succ (next_id s)) (down s)).

(* ------------------------------------------------------------------ *)
(** ** Channel messages *)

(** The per-row profile lookup of the read functions:
    [user_result.data[0]] if found, the placeholder dict if the row is
    missing or the lookup raises. *)
Definition resolve (s : store) (uid : string) : author :=
  match q_profile s uid with
  | Ok (p :: _) => Found p
  | Ok [] => unknown_user
  | Err _ => unknown_user
  end.

Definition decorate (s : store) (ms : list message) : list (message * author) :=
  map (fun m => (m, resolve s (msg_user m))) ms.

(** [get_channel_messages(auth_supabase, channel_id, limit=50)]; the
    second component lists the [st.error] calls. *)
Definition get_channel_messages (s : store) (channel_id : string) (limit : nat)
  : list (message * author) * list string :=
  match q_channel_messages s channel_id limit with
  | Err e => ([], ["Error fetching messages: " ++ e])
  | Ok ms => (decorate s ms, [])
  end.

(** [send_message(auth_supabase, user_id, channel_id, content)]. *)
Definition send_message (s : store) (user_id channel_id content : string) (now : Z)
  : option message * store * list string :=
  match insert_message s user_id (Some channel_id) None (strip content) now with
  | Err e => (None, s, ["Error sending message: " ++ e])
  | Ok (m, s') => (Some m, s', [])
  end.

(* ------------------------------------------------------------------ *)
(** ** Direct messages and the demo conversation overlay *)

Definition alex_id : string := "a1b2c3d4-e5f6-7890-abcd-ef1234567890".
Definition sarah_id : string := "b2c3d4e5-f6g7-8901-bcde-fg2345678901".

Definition demo_user_ids : list string := [alex_id; sarah_id].

(** [other_user_id in demo_user_ids]. *)
Definition is_demo (uid : string) : bool := existsb (String.eqb uid) demo_user_ids.

(** [demo_user_names.get(uid, {"display_name": "Demo User", ...})]. *)
Definition demo_user_name (uid : string) : author :=
  if String.eqb uid alex_id then Named "Alex Johnson" "alex"
  else if String.eqb uid sarah_id then Named "Sarah Chen" "sarah"
  else Named "Demo User" "demo".

Definition demo_key (user_id other_user_id : string) : string :=
  user_id ++ "_" ++ other_user_id.

(** 2024-01-15T10:00:00Z in microseconds since the epoch. *)
Definition seed_time : Z := 1705312800 * 1000000.

Definition demo_seed (user_id other_user_id : string) : list message :=
  [ mkMessage "demo-init-1" other_user_id None (Some user_id)
      "Hey! Welcome to the Slack clone! 👋" "text" seed_time;
    mkMessage "demo-init-2" other_user_id None (Some user_id)
      "This is a demo conversation to show how messaging works. Try sending me a message!"
      "text" (seed_time + 60 * 1000000) ].

Definition decorate_demo (user_id : string) (m : message) : message * author :=
  if String.eqb (msg_user m) user_id then (m, Named "You" "you")
  else (m, demo_user_name (msg_user m)).

(** [get_direct_messages(auth_supabase, user_id, other_user_id, limit=50)]:
    the messages, the new [demo_messages] and the [st.error] calls. *)
Definition get_direct_messages (s : store) (demo : gmap string (list message))
  (user_id other_user_id : string) (limit : nat)
  : list (message * author) * gmap string (list message) * list string :=
  if is_demo other_user_id then
    let key := demo_key user_id other_user_id in
    let demo' := match demo !! key with
                 | Some _ => demo
                 | None => <[key := demo_seed user_id other_user_id]> demo
                 end in
    let conv := match demo' !! key with Some l => l | None => [] end in
    (map (decorate_demo user_id) conv, demo', [])
  else
    match q_direct_messages s user_id other_user_id limit with
    | Err e => ([], demo, ["Error fetching direct messages: " ++ e])
    | Ok ms => (decorate s ms, demo, [])
    end.

(** The dict built for a demo recipient by [send_direct_message]. *)
Definition demo_sent (user_id recipient_id content : string) (now : Z) : message :=
  mkMessage ("demo-msg-" ++ str_of_Z (unix_second now)) user_id None
    (Some recipient_id) (strip content) "text" now.

(** [send_direct_message(auth_supabase, user_id, recipient_id, content)]. *)
Definition send_direct_message (s : store) (user_id recipient_id content : string)
  (now : Z) : option message * store * list string :=
  if is_demo recipient_id then (Some (demo_sent user_id recipient_id content now), s, [])
  else
    match insert_message s user_id None (Some recipient_id) (strip content) now with
    | Err e => (None, s, ["Error sending direct message: " ++ e])
    | Ok (m, s') => (Some m, s', [])
    end.

(* ------------------------------------------------------------------ *)
(** ** Reactions *)

Definition same_reaction (a b : reaction) : bool :=
  (String.eqb (r_message a) (r_message b) && String.eqb (r_user a) (r_user b) &&
   String.eqb (r_emoji a) (r_emoji b))%bool.

(** Modelled from the spec: the unique constraint on
    [(message_id, user_id, emoji)] of [message_reactions] (declared in the
    repository's [schema.sql], not under src/): the table store rejects
    a duplicate insert with a "duplicate key" error (spec §6). *)
Definition insert_reaction (s : store) (r : reaction) : res store :=
  if down s TReactions then Err conn_error
  else if existsb (same_reaction r) (reactions s) then Err dup_error
  else Ok (set_reactions s (app (reactions s) [r])).

(** [add_reaction(auth_supabase, message_id, user_id, emoji)]: every
    exception is swallowed, no [st.error]. *)
Definition add_reaction (s : store) (message_id user_id emoji : string)
  : option reaction * store * list string :=
  let r := mkReaction message_id user_id emoji in
  match insert_reaction s r with
  | Err _ => (None, s, [])
  | Ok s' => (Some r, s', [])
  end.

(** [remove_reaction(...)]: [delete ... where message_id, user_id, emoji]
    (deleting no row is not an error); [True], or [False] on exception. *)
Definition remove_reaction (s : store) (message_id user_id emoji : string)
  : bool * store * list string :=
  let r := mkReaction message_id user_id emoji in
  if down s TReactions then (false, s, [])
  else (true, set_reactions s (List.filter (fun x => negb (same_reaction r x)) (reactions s)), []).

(** [get_message_reactions(auth_supabase, message_id)]. *)
Definition get_message_reactions (s : store) (message_id : string)
  : list (reaction * author) :=
  if down s TReactions then []
  else map (fun r => (r, resolve s (r_user r)))
         (List.filter (fun r => String.eqb (r_message r) message_id) (reactions s)).

(* ------------------------------------------------------------------ *)
(** ** Channel membership and user listing *)

Definition same_member (a b : string * string) : bool :=
  (String.eqb (fst a) (fst b) && String.eqb (snd a) (snd b))%bool.

(** Modelled from the spec: the unique constraint on
    [(user_id, channel_id)] of [channel_members] (declared in the
    repository's [schema.sql], not under src/): a duplicate insert is
    rejected with a "duplicate key" error (spec §6). *)
Definition insert_member (s : store) (user_id channel_id : string) : res store :=
  if down s TMembers then Err conn_error
  else if existsb (same_member (user_id, channel_id)) (members s) then Err dup_error
  else Ok (set_members s (app (members s) [(user_id, channel_id)])).

(** [join_channel(auth_supabase, user_id, channel_id)]. *)
Definition join_channel (s : store) (user_id channel_id : string)
  : bool * store * list string :=
  match insert_member s user_id channel_id with
  | Ok s' => (true, s', [])
  | Err e =>
      (false, s,
       if contains "duplicate key" (lower e) then []
       else ["Error joining channel: " ++ e])
  end.

(** [get_user_channels(auth_supabase, user_id)]: the channels with an
    inner-joined membership row of [user_id]. *)
Definition get_user_channels (s : store) (user_id : string)
  : list channel_row * list string :=
  if (down s TChannels || down s TMembers)%bool
  then ([], ["Error fetching channels: " ++ conn_error])
  else (List.filter (fun c => existsb (same_member (user_id, ch_id c)) (members s))
          (channels s), []).

Definition demo_users : list profile_row :=
  [ mkProfile alex_id "alex" "Alex Johnson"
      "https://images.unsplash.com/photo-1507003211169-0a1dd7228f2d?w=150&h=150&fit=crop&crop=face"
      "online";
    mkProfile sarah_id "sarah" "Sarah Chen"
      "https://images.unsplash.com/photo-1494790108755-2616b612b5bc?w=150&h=150&fit=crop&crop=face"
      "online" ].

(** Python truthiness of [exclude_user_id]: [None] and [""] are false. *)
Definition truthy (o : option string) : option string :=
  match o with
  | Some x => if String.eqb x "" then None else Some x
  | None => None
  end.

(** [get_all_users(auth_supabase, exclude_user_id=None)]. *)
Definition get_all_users (s : store) (exclude_user_id : option string)
  : list profile_row * list string :=
  let keep := fun p => match truthy exclude_user_id with
                       | Some x => negb (String.eqb (up_id p) x)
                       | None => true
                       end in
  if down s TProfiles
  then (demo_users, ["Error fetching users: " ++ conn_error])
  else (app (List.filter keep (profiles s)) (List.filter keep demo_users), []).

(* ------------------------------------------------------------------ *)
(** ** The main area of a run: auto-refresh check, list read, Send

    Streamlit executes the whole script on every UI cycle: the profile
    upsert and the sidebar first ([sidebar_run] below), then the main
    area, modelled here.  In the main area ([view_mode] is always
    ["channel"] or ["dm"]) a run first checks the refresh timer; if it
    fires it resets [last_refresh] and calls [st.rerun()], which ends the
    run.  Otherwise the run reads the active conversation and then
    handles the Send button; a sent message triggers [st.rerun()].  The
    reaction buttons are modelled apart ([click_reaction_button]), and
    the per-message reaction reads are left out: they neither write nor
    change the session. *)

Inductive view := ViewChannel | ViewDm.

Record session := mkSession {
  view_mode : view;
  current_channel : option string;
  current_dm_user : option string;
  message_count : nat;
  last_refresh : Z;
  demo_messages : gmap string (list message)
}.

Record cycle := mkCycle {
  c_read : option (list (message * author));
  c_rerun : bool;
  c_session : session;
  c_store : store;
  c_errors : list string
}.

(** The refresh interval of [time.time() - last_refresh > 5]. *)
Definition refresh_interval : Z := 5 * 1000000.

Definition append_demo (demo : gmap string (list message)) (key : string)
  (m : message) : gmap string (list message) :=
  match demo !! key with
  | Some l => <[key := app l [m]]> demo
  | None => <[key := [m]]> demo
  end.

(** [if send_button and message_input and message_input.strip()]. *)
Definition send_guard (send_pressed : bool) (message_input : string) : bool :=
  (send_pressed && negb (String.eqb message_input "") &&
   negb (String.eqb (strip message_input) ""))%bool.

Definition main_run (s : store) (sess : session) (user_id : string) (now : Z)
  (send_pressed : bool) (message_input : string) : cycle :=
  if Z.ltb refresh_interval (now - last_refresh sess) then
    mkCycle None true
      (mkSession (view_mode sess) (current_channel sess) (current_dm_user sess)
         (message_count sess) now (demo_messages sess)) s []
  else
    (* Get and display messages *)
    let '(read, demo1, errs1) :=
      match view_mode sess, current_channel sess, current_dm_user sess with
      | ViewChannel, Some ch, _ =>
          let '(l, e) := get_channel_messages s ch 50 in (Some l, demo_messages sess, e)
      | ViewDm, _, Some d =>
          let '(l, demo', e) := get_direct_messages s (demo_messages sess) user_id d 50 in
          (Some l, demo', e)
      | _, _, _ => (None, demo_messages sess, [])
      end in
    if send_guard send_pressed message_input then
      let '(sent, s', demo2, errs2) :=
        match view_mode sess, current_channel sess, current_dm_user sess with
        | ViewChannel, Some ch, _ =>
            let '(sent, s', e) := send_message s user_id ch message_input now in
            (sent, s', demo1, e)
        | ViewDm, _, Some d =>
            let '(sent, s', e) := send_direct_message s user_id d message_input now in
            let demo2 := match sent with
                         | Some m => if is_demo d then append_demo demo1 (demo_key user_id d) m
                                     else demo1
                         | None => demo1
                         end in
            (sent, s', demo2, e)
        | _, _, _ => (None, s, demo1, [])
        end in
      match sent with
      | Some _ =>
          mkCycle read true
            (mkSession (view_mode sess) (current_channel sess) (current_dm_user sess)
               (S (message_count sess)) (last_refresh sess) demo2) s' (app errs1 errs2)
      | None =>
          mkCycle read false
            (mkSession (view_mode sess) (current_channel sess) (current_dm_user sess)
               (message_count sess) (last_refresh sess) demo2) s' (app errs1 errs2)
      end
    else
      mkCycle read false
        (mkSession (view_mode sess) (current_channel sess) (current_dm_user sess)
           (message_count sess) (last_refresh sess) demo1) s errs1.

(** The active conversation of a session. *)
Definition active (sess : session) : bool :=
  match view_mode sess, current_channel sess, current_dm_user sess with
  | ViewChannel, Some _, _ => true
  | ViewDm, _, Some _ => true
  | _, _, _ => false
  end.

(** Whether a run of the script performed the active list read. *)
Definition performed_read (c : cycle) : bool :=
  match c_read c with Some _ => true | None => false end.

(** [created_at] order of the rows returned by a list read. *)
Definition le_created (a b : message) : Prop := msg_created a <= msg_created b.

(** A profile row is missing for [uid], or the profile lookup raises. *)
Definition profile_missing (s : store) (uid : string) : Prop :=
  down s TProfiles = true \/ ~ (exists p, In p (profiles s) /\ up_id p = uid).

Definition count_reaction (r : reaction) (l : list reaction) : nat :=
  length (List.filter (same_reaction r) l).

Definition count_member (um : string * string) (l : list (string * string)) : nat :=
  length (List.filter (same_member um) l).

(* ------------------------------------------------------------------ *)
(** ** Concrete stores and sessions used by the examples *)

Definition all_up : table -> bool := fun _ => false.

Definition empty_store : store := mkStore [] [] [] [] [] 0 all_up.

(** A store whose every table raises. *)
Definition broken_store : store := mkStore [] [] [] [] [] 0 (fun _ => true).

(** Only [user_profiles] raises. *)
Definition profiles_down_store : store :=
  mkStore [] [] [] [] [] 0 (fun t => match t with TProfiles => true | _ => false end).

(** Channel ["c1"] already holds 50 messages, posted at times 0..49. *)
Definition old_message (n : nat) : message :=
  mkMessage ("old-" ++ str_of_Z (Z.of_nat n)) "u0" (Some "c1") None "old" "text"
    (Z.of_nat n).

Definition full_channel_store : store :=
  mkStore (map old_message (seq 0 50)) [] [] [] [] 50 all_up.

Definition channel_session (last : Z) : session :=
  mkSession ViewChannel (Some "c1") None 0 last ∅.

(** The channel view before any channel is selected. *)
Definition fresh_session : session := mkSession ViewChannel None None 0 0 ∅.

Definition demo_session (last : Z) : session :=
  mkSession ViewDm None (Some alex_id) 0 last ∅.

(** Channel ["c1"] holds two messages posted at the same time 2, and a
    direct message is stored next to them. *)
Definition busy_channel_store : store :=
  mkStore [ mkMessage "msg-0" "u2" (Some "c1") None "first" "text" 2;
            mkMessage "msg-1" "u3" (Some "c1") None "second" "text" 2;
            mkMessage "msg-2" "u2" None (Some "u1") "psst" "text" 3 ] [] [] [] [] 3 all_up.

(** The overlay of user ["u1"] with [alex] after 49 sends from ["u1"]. *)
Definition demo_posted (n : nat) : message :=
  demo_sent "u1" alex_id "hi" (1760000000 * 1000000 + Z.of_nat n).

Definition long_overlay : gmap string (list message) :=
  {[ demo_key "u1" alex_id := app (demo_seed "u1" alex_id) (map demo_posted (seq 0 49)) ]}.

(* ------------------------------------------------------------------ *)
(** ** Reaction buttons of the message view

    For each message the main loop groups the reactions by emoji into
    the dicts [reaction_counts] and [user_reactions] (insertion order),
    shows one button per emoji with its count, highlighted when
    [user_has_reacted], and a click removes the user's reaction if
    highlighted and adds it otherwise. *)

(** [reaction['user_profiles']['display_name'] or ...['username']]. *)
Definition author_name (a : author) : string :=
  match a with
  | Found p => if String.eqb (up_display p) "" then up_username p else up_display p
  | Named d u => if String.eqb d "" then u else d
  end.

(** One step of the grouping loop: [reaction_counts[emoji] += 1] and
    [user_reactions[emoji].append(name)], creating the entry first. *)
Fixpoint bump_emoji (e name : string) (acc : list (string * (nat * list string)))
  : list (string * (nat * list string)) :=
  match acc with
  | [] => [(e, (1%nat, [name]))]
  | (e', (c, names)) :: rest =>
      if String.eqb e' e then (e', (S c, app names [name])) :: rest
      else (e', (c, names)) :: bump_emoji e name rest
  end.

Definition group_reactions (rs : list (reaction * author))
  : list (string * (nat * list string)) :=
  fold_left (fun acc ra => bump_emoji (r_emoji (fst ra)) (author_name (snd ra)) acc) rs [].

(** [any(r['user_id'] == user_id and r['emoji'] == emoji for r in reactions)]. *)
Definition user_has_reacted (rs : list (reaction * author)) (user_id e : string) : bool :=
  existsb (fun ra => (String.eqb (r_user (fst ra)) user_id && String.eqb (r_emoji (fst ra)) e)%bool) rs.

(** The buttons [f"{emoji} {count}"] in display order, with their
    highlight. *)
Definition reaction_buttons (rs : list (reaction * author)) (user_id : string)
  : list (string * nat * bool) :=
  map (fun x => (fst x, fst (snd x), user_has_reacted rs user_id (fst x)))
    (group_reactions rs).

(** A click on the button of [emoji] under message [message_id]. *)
Definition click_reaction_button (s : store) (message_id user_id emoji : string)
  : store * list string :=
  if user_has_reacted (get_message_reactions s message_id) user_id emoji then
    let '(_, s', errs) := remove_reaction s message_id user_id emoji in (s', errs)
  else
    let '(_, s', errs) := add_reaction s message_id user_id emoji in (s', errs).

(* ------------------------------------------------------------------ *)
(** ** Channel creation *)

(** A channel named [name] exists in the workspace [workspace_id]. *)
Definition channel_taken (s : store) (workspace_id name : string) : bool :=
  existsb (fun c => (String.eqb (ch_name c) name &&
                     String.eqb (ch_workspace c) workspace_id)%bool) (channels s).

(** [insert into channels]: the server assigns [id]; the description
    and [created_by] columns are not read by the modelled code and are
    left out of [channel_row].  Modelled from the spec: a channel name
    is unique within its workspace (spec §3), so the insert of a name
    already taken in that workspace is rejected with a "duplicate key"
    error.  The spec states no other constraint on the insert. *)
Definition insert_channel (s : store) (workspace_id name : string)
  : res (channel_row * store) :=
  if down s TChannels then Err conn_error
  else if channel_taken s workspace_id name then Err dup_error
  else
    let c := mkChannel ("ch-" ++ str_of_Z (Z.of_N (next_id s))) workspace_id name in
    Ok (c, mkStore (messages s) (profiles s) (reactions s) (members s)
                   (app (channels s) [c]) (N.succ (next_id s)) (down s)).

(** [create_channel(auth_supabase, user_id, workspace_id, name, description)]:
    insert, then auto-join the creator. *)
Definition create_channel (s : store) (user_id workspace_id name description : string)
  : option channel_row * store * list string :=
  match insert_channel s workspace_id name with
  | Err e => (None, s, ["Error creating channel: " ++ e])
  | Ok (c, s1) =>
      let '(_, s2, errs) := join_channel s1 user_id (ch_id c) in (Some c, s2, errs)
  end.

Fixpoint replace_space (s : string) : string :=
  match s with
  | EmptyString => EmptyString
  | String c s' => String (if Ascii.eqb c " "%char then "-"%char else c) (replace_space s')
  end.

(** [new_channel_name.strip().lower().replace(" ", "-")], with [strip]
    and [lower] on ASCII text as above. *)
Definition clean_channel_name (name : string) : string :=
  replace_space (lower (strip name)).

(** The submit handler of the Create Channel form (workspace id 1). *)
Definition create_channel_form (s : store) (user_id new_channel_name new_channel_desc : string)
  : option channel_row * store * list string :=
  if String.eqb (strip new_channel_name) "" then (None, s, ["Please enter a channel name"])
  else create_channel s user_id "1" (clean_channel_name new_channel_name) new_channel_desc.

(* ------------------------------------------------------------------ *)
(** ** Default workspace and channel, user profile *)

(** The [workspaces] table: [(id, name)] rows, the next server id and a
    failure switch. *)
Record ws_table := mkWs {
  workspaces : list (string * string);
  ws_next : N;
  ws_down : bool
}.

(** [ensure_default_workspace_and_channel(auth_supabase, user_id)]: every
    exception is swallowed; only [join_channel] may show an error. *)
Definition ensure_default_workspace_and_channel (s : store) (w : ws_table)
  (user_id : string) : store * ws_table * list string :=
  if ws_down w then (s, w, [])
  else
    let '(workspace_id, w1) :=
      match List.filter (fun x => String.eqb (snd x) "Default Workspace") (workspaces w) with
      | (wid, _) :: _ => (wid, w)
      | [] =>
          let wid := "ws-" ++ str_of_Z (Z.of_N (ws_next w)) in
          (wid, mkWs (app (workspaces w) [(wid, "Default Workspace")]) (N.succ (ws_next w))
                     (ws_down w))
      end in
    if down s TChannels then (s, w1, [])
    else
      match List.filter (fun c => (String.eqb (ch_name c) "general" &&
                                   String.eqb (ch_workspace c) workspace_id)%bool)
              (channels s) with
      | c :: _ => let '(_, s2, errs) := join_channel s user_id (ch_id c) in (s2, w1, errs)
      | [] =>
          match insert_channel s workspace_id "general" with
          | Err _ => (s, w1, [])
          | Ok (c, s1) => let '(_, s2, errs) := join_channel s1 user_id (ch_id c) in (s2, w1, errs)
          end
      end.

(** The fields of the auth provider's user that the code reads:
    [id], [email] (default [""]), [user_metadata] [full_name], [name]
    and [avatar_url] (default [""]). *)
Record auth_user := mkAuthUser {
  au_id : string;
  au_email : string;
  au_full_name : option string;
  au_name : option string;
  au_avatar : string
}.

(** [email.split("@")[0]]. *)
Fixpoint before_at (s : string) : string :=
  match s with
  | EmptyString => EmptyString
  | String c s' => if Ascii.eqb c "@"%char then EmptyString else String c (before_at s')
  end.

(** [a or b] for an optional string [a]. *)
Definition or_else (a : option string) (b : string) : string :=
  match truthy a with Some x => x | None => b end.

(** The row upserted by [create_or_update_user_profile] ([updated_at]
    is not read by the modelled code and is left out). *)
Definition profile_of_user (u : auth_user) : profile_row :=
  let username := if String.eqb (au_email u) "" then "user_" ++ substring 0 8 (au_id u)
                  else before_at (au_email u) in
  mkProfile (au_id u) username (or_else (au_full_name u) (or_else (au_name u) username))
    (au_avatar u) "online".

(** [upsert] on [user_profiles], keyed by [id]. *)
Definition upsert_profile (s : store) (p : profile_row) : res store :=
  if down s TProfiles then Err conn_error
  else
    let ps := if existsb (fun q => String.eqb (up_id q) (up_id p)) (profiles s)
              then map (fun q => if String.eqb (up_id q) (up_id p) then p else q) (profiles s)
              else app (profiles s) [p] in
    Ok (mkStore (messages s) ps (reactions s) (members s) (channels s) (next_id s) (down s)).

(** [create_or_update_user_profile(auth_supabase, user)]. *)
Definition create_or_update_user_profile (s : store) (w : ws_table) (u : auth_user)
  : option profile_row * store * ws_table * list string :=
  let p := profile_of_user u in
  match upsert_profile s p with
  | Err e => (None, s, w, ["Error creating user profile: " ++ e])
  | Ok s1 =>
      let '(s2, w2, errs) := ensure_default_workspace_and_channel s1 w (au_id u) in
      (Some p, s2, w2, errs)
  end.

(* ------------------------------------------------------------------ *)
(** ** A whole run of the script for a signed-in user *)

(** The part of a run before the main area, with no sidebar button
    pressed: [create_or_update_user_profile] (line 604), then the
    sidebar (lines 607-741): the user's channels, the auto-join of
    channel 1 (the id [1], written ["1"]) when none of them is named
    "general", the default [current_channel = channels[0]], the user
    listing and the public-channel query of "Browse Channels".  It gives
    the store, the workspaces table, the session and the [st.error]
    calls. *)
Definition sidebar_run (s : store) (w : ws_table) (sess : session) (u : auth_user)
  : store * ws_table * session * list string :=
  let user_id := au_id u in
  let '(_, s1, w1, e1) := create_or_update_user_profile s w u in
  let '(channels0, e2) := get_user_channels s1 user_id in
  let '(channels1, s2, e3) :=
    if existsb (fun c => String.eqb (ch_name c) "general") channels0 then (channels0, s1, [])
    else
      let '(_, s2, ej) := join_channel s1 user_id "1" in
      let '(channels1, e4) := get_user_channels s2 user_id in
      (channels1, s2, app ej e4) in
  let sess1 :=
    match current_channel sess, channels1 with
    | None, c :: _ =>
        mkSession (view_mode sess) (Some (ch_id c)) (current_dm_user sess)
          (message_count sess) (last_refresh sess) (demo_messages sess)
    | _, _ => sess
    end in
  let '(_, e5) := get_all_users s2 (Some user_id) in
  let e6 := if down s2 TChannels then ["Error loading channels: " ++ conn_error] else [] in
  (s2, w1, sess1, app e1 (app e2 (app e3 (app e5 e6)))).

(** A whole run of the script for a signed-in user: the profile upsert
    and the sidebar, then the main area ([main_run]). *)
Definition script_run (s : store) (w : ws_table) (sess : session) (u : auth_user) (now : Z)
  (send_pressed : bool) (message_input : string) : cycle * ws_table :=
  let '(s1, w1, sess1, e1) := sidebar_run s w sess u in
  let c := main_run s1 sess1 (au_id u) now send_pressed message_input in
  (mkCycle (c_read c) (c_rerun c) (c_session c) (c_store c) (app e1 (c_errors c)), w1).

(** The stored reactions hold each [(message, user, emoji)] at most once. *)
Definition reactions_unique (l : list reaction) : Prop :=
  forall r, (count_reaction r l <= 1)%nat.

(** Every stored message has exactly one of [channel_id], [recipient_id]. *)
Definition one_target (m : message) : bool :=
  match msg_channel m, msg_recipient m with
  | Some _, None | None, Some _ => true
  | _, _ => false
  end.

(** The entry of [emoji] in the grouped reactions, as
    [(reaction_counts[emoji], user_reactions[emoji])]. *)
Fixpoint group_lookup (e : string) (g : list (string * (nat * list string)))
  : option (nat * list string) :=
  match g with
  | [] => None
  | (e', v) :: g' => if String.eqb e' e then Some v else group_lookup e g'
  end.

(** One character of [clean_channel_name]: lowered, a blank becomes a dash. *)
Definition clean_char (c : ascii) : ascii :=
  if Ascii.eqb (lower_ascii c) " "%char then "-"%char else lower_ascii c.

(** The whitespace character at the head of a byte list, as [drop_ws]
    recognises it: the bytes that follow it. *)
Definition ws_step (sp2 : ascii -> ascii -> bool) (sp3 : ascii -> ascii -> ascii -> bool)
  (l : list ascii) : option (list ascii) :=
  match l with
  | [] => None
  | a :: l1 =>
      if is_space a then Some l1 else
      match l1 with
      | [] => None
      | b :: l2 =>
          if sp2 a b then Some l2 else
          match l2 with
          | [] => None
          | c :: l3 => if sp3 a b c then Some l3 else None
          end
      end
  end.

(** A text whose bytes are all ASCII. *)
Definition ascii_text (s : string) : bool :=
  forallb (fun c => Nat.ltb (nat_of_ascii c) 128) (list_ascii_of_string s).

(** Reactions under one message, as read back with their profiles. *)
Definition sample_reactions : list (reaction * author) :=
  [ (mkReaction "m1" "u1" "👍", Named "Ann" "ann");
    (mkReaction "m1" "u2" "❤️", Named "" "bob");
    (mkReaction "m1" "u2" "👍", Named "" "bob") ].

(** A store holding one reaction of ["u1"] under ["m1"]. *)
Definition reaction_store : store :=
  mkStore [] [] [mkReaction "m1" "u1" "👍"] [] [] 0 all_up.

(** Three users gave ["👍"] to ["m1"]; one of them also gave ["❤️"],
    and another message has a ["👍"] too. *)
Definition thumbs_store : store :=
  mkStore [] []
    [ mkReaction "m1" "u1" "👍"; mkReaction "m1" "u2" "👍"; mkReaction "m1" "u1" "❤️";
      mkReaction "m1" "u3" "👍"; mkReaction "m2" "u1" "👍" ] [] [] 0 all_up.

(** A store whose [channel_members] table is down. *)
Definition members_down_store : store :=
  mkStore [] [] [] [] [] 0 (fun t => match t with TMembers => true | _ => false end).

(** An empty [workspaces] table. *)
Definition empty_ws : ws_table := mkWs [] 0 false.

(** A user signing in with an email address and a full name. *)
Definition sample_user : auth_user :=
  mkAuthUser "0123456789ab" "jane.doe@example.com" (Some "Jane Doe") None "".

(** A blank made of U+00A0 (no-break space, bytes [C2 A0]) and [\x1f]. *)
Definition odd_blank : string :=
  String (ascii_of_nat 194) (String (ascii_of_nat 160) (String (ascii_of_nat 31) EmptyString)).

(** [sample_user] signed in before, under an older name, next to another
    user. *)
Definition returning_store : store :=
  mkStore [] [ mkProfile "0123456789ab" "jane" "Jane D." "" "away";
               mkProfile "u2" "bob" "Bob" "" "online" ] [] [] [] 0 all_up.

(** A conversation of ["u1"] and ["u2"] in both directions, with a
    message to a third user and a channel message in between. *)
Definition dm_store : store :=
  mkStore [ mkMessage "msg-0" "u1" None (Some "u2") "hi" "text" 1;
            mkMessage "msg-1" "u2" None (Some "u1") "hello" "text" 2;
            mkMessage "msg-2" "u1" None (Some "u3") "other" "text" 3;
            mkMessage "msg-3" "u1" None (Some "u2") "lunch?" "text" 4;
            mkMessage "msg-4" "u2" (Some "c1") None "channel" "text" 5 ]
    [mkProfile "u1" "ann" "Ann" "" "online"] [] [] [] 5 all_up.

(** Channel ["c1"] holds a message of ["u9"], who has no profile row,
    and one of ["u1"], who has one. *)
Definition orphan_store : store :=
  mkStore [ mkMessage "msg-0" "u9" (Some "c1") None "hello" "text" 1;
            mkMessage "msg-1" "u1" (Some "c1") None "hi" "text" 2 ]
    [mkProfile "u1" "ann" "Ann" "" "online"] [] [] [] 2 all_up.


(** A store with one channel ["c1"] named "general" and no member. *)
Definition general_store : store :=
  mkStore [] [] [] [] [mkChannel "c1" "1" "general"] 0 all_up.

(* ================================================================== *)
(** * Lemmas on the model *)

Lemma string_eqb_refl (x : string) : String.eqb x x = true.
Proof. apply String.eqb_eq. reflexivity. Qed.

Lemma strip_blank_guard (b : bool) (input : string) :
  strip input = "" -> send_guard b input = false.
Proof.
  intros H. unfold send_guard. rewrite H. simpl. now rewrite andb_false_r.
Qed.

(** Insertion keeps the [created_at] order. *)
Lemma ins_created_hd (a m : message) (l : list message) :
  HdRel le_created a l -> le_created a m -> HdRel le_created a (ins_created m l).
Proof.
  intros Hl Ham. destruct l as [| x l']; simpl.
  - constructor. exact Ham.
  - destruct (Z.ltb (msg_created m) (msg_created x)); constructor.
    + exact Ham.
    + inversion Hl; assumption.
Qed.

Lemma ins_created_sorted (m : message) (l : list message) :
  Sorted le_created l -> Sorted le_created (ins_created m l).
Proof.
  induction l as [| x l' IH]; intros H; simpl.
  - constructor; constructor.
  - destruct (Z.ltb (msg_created m) (msg_created x)) eqn:E.
    + apply Z.ltb_lt in E. constructor; [exact H |]. constructor.
      unfold le_created. lia.
    + apply Z.ltb_ge in E. inversion H; subst.
      constructor; [apply IH; assumption |].
      apply ins_created_hd; [assumption |]. unfold le_created. lia.
Qed.

Lemma order_by_created_sorted (l : list message) :
  Sorted le_created (order_by_created l).
Proof.
  unfold order_by_created.
  assert (Hgen : forall acc, Sorted le_created acc ->
            Sorted le_created (fold_left (fun acc m => ins_created m acc) l acc)).
  { induction l as [| x l' IH]; intros acc Hacc; simpl.
    - exact Hacc.
    - apply IH. apply ins_created_sorted. exact Hacc. }
  apply Hgen. constructor.
Qed.

Lemma firstn_sorted (n : nat) (l : list message) :
  Sorted le_created l -> Sorted le_created (firstn n l).
Proof.
  revert l. induction n as [| n IH]; intros l H; simpl.
  - constructor.
  - destruct l as [| x l']; simpl; [constructor |].
    inversion H; subst. constructor; [apply IH; assumption |].
    destruct n as [| n']; simpl; [constructor |].
    destruct l' as [| y l'']; simpl; [constructor |].
    inversion H3; subst. constructor. assumption.
Qed.

Lemma in_ins_created (x m : message) (l : list message) :
  In x (ins_created m l) <-> x = m \/ In x l.
Proof.
  induction l as [| y l' IH]; simpl.
  - intuition congruence.
  - destruct (Z.ltb (msg_created m) (msg_created y)); simpl;
      [intuition congruence |].
    rewrite IH. intuition congruence.
Qed.

Lemma in_order_by_created (x : message) (l : list message) :
  In x (order_by_created l) <-> In x l.
Proof.
  unfold order_by_created.
  assert (Hgen : forall acc, In x (fold_left (fun acc m => ins_created m acc) l acc)
                             <-> In x acc \/ In x l).
  { induction l as [| y l' IH]; intros acc; simpl.
    - tauto.
    - rewrite IH, in_ins_created. intuition congruence. }
  rewrite Hgen. simpl. tauto.
Qed.

Lemma length_ins_created (m : message) (l : list message) :
  length (ins_created m l) = S (length l).
Proof.
  induction l as [| y l' IH]; simpl; [reflexivity |].
  destruct (Z.ltb (msg_created m) (msg_created y)); simpl; [reflexivity | now rewrite IH].
Qed.

Lemma length_order_by_created (l : list message) :
  length (order_by_created l) = length l.
Proof.
  unfold order_by_created.
  assert (Hgen : forall acc, length (fold_left (fun acc m => ins_created m acc) l acc)
                             = (length acc + length l)%nat).
  { induction l as [| y l' IH]; intros acc; simpl.
    - lia.
    - rewrite IH, length_ins_created. simpl. lia. }
  rewrite Hgen. reflexivity.
Qed.

(** A row not earlier than every row of the list goes last. *)
Lemma ins_created_perm (m : message) (l : list message) :
  Permutation (ins_created m l) (m :: l).
Proof.
  induction l as [| x l IH]; simpl; [reflexivity |].
  destruct (Z.ltb (msg_created m) (msg_created x)); [reflexivity |].
  rewrite IH. apply perm_swap.
Qed.

Lemma order_by_created_perm (l : list message) : Permutation (order_by_created l) l.
Proof.
  unfold order_by_created.
  assert (H : forall acc, Permutation (fold_left (fun acc m => ins_created m acc) l acc)
                                      (app acc l)).
  { induction l as [| x l IH]; intros acc; simpl; [now rewrite app_nil_r |].
    rewrite IH, ins_created_perm. simpl. apply Permutation_middle. }
  apply H.
Qed.

Lemma ins_created_last (m : message) (l : list message) :
  (forall x, In x l -> msg_created x <= msg_created m) ->
  ins_created m l = app l [m].
Proof.
  induction l as [| y l' IH]; intros H; simpl; [reflexivity |].
  destruct (Z.ltb (msg_created m) (msg_created y)) eqn:E.
  - apply Z.ltb_lt in E. specialize (H y (or_introl eq_refl)). lia.
  - f_equal. apply IH. intros x Hx. apply H. right. exact Hx.
Qed.

Lemma order_by_created_snoc (l : list message) (m : message) :
  (forall x, In x l -> msg_created x <= msg_created m) ->
  order_by_created (app l [m]) = app (order_by_created l) [m].
Proof.
  intros H. unfold order_by_created. rewrite fold_left_app. simpl.
  apply ins_created_last. intros x Hx. apply H.
  apply (in_order_by_created x l). exact Hx.
Qed.

Lemma map_fst_decorate (s : store) (ms : list message) :
  map fst (decorate s ms) = ms.
Proof.
  unfold decorate. rewrite map_map. simpl. apply map_id.
Qed.

Lemma opt_eqb_refl (o : option string) : opt_eqb o o = true.
Proof. destruct o; simpl; [apply string_eqb_refl | reflexivity]. Qed.

(** A post to a channel that holds fewer than [limit] messages, none of
    them later than the post, is listed last. *)
Lemma post_listed_last (s s' : store) (uid ch content : string) (now : Z)
  (lim : nat) (m : message) (errs : list string) :
  send_message s uid ch content now = (Some m, s', errs) ->
  (forall x, In x (messages s) -> msg_channel x = Some ch -> msg_created x <= now) ->
  (length (List.filter (fun x => opt_eqb (msg_channel x) (Some ch)) (messages s)) < lim)%nat ->
  map fst (fst (get_channel_messages s' ch lim)) =
  app (order_by_created (List.filter (fun x => opt_eqb (msg_channel x) (Some ch)) (messages s))) [m].
Proof.
  intros Hsend Hnow Hlen.
  unfold send_message, insert_message in Hsend.
  destruct (down s TMessages) eqn:Hd; [discriminate |].
  inversion Hsend; subst; clear Hsend.
  unfold get_channel_messages, q_channel_messages. simpl. rewrite Hd. simpl.
  rewrite map_fst_decorate, List.filter_app. cbn [List.filter]. rewrite opt_eqb_refl.
  rewrite order_by_created_snoc.
  - apply firstn_all2. rewrite length_app, length_order_by_created. simpl. lia.
  - intros x Hx. apply List.filter_In in Hx as [Hx Hc]. apply Hnow; [exact Hx |].
    destruct (msg_channel x) as [c |]; simpl in Hc; [| discriminate].
    apply String.eqb_eq in Hc. now subst.
Qed.

Lemma filter_nil_existsb {A : Type} (f : A -> bool) (l : list A) :
  List.filter f l = [] -> existsb f l = false.
Proof.
  induction l as [| a l IH]; simpl; [reflexivity |].
  destruct (f a); [discriminate | exact IH].
Qed.

Lemma filter_none {A : Type} (f : A -> bool) (l : list A) :
  existsb f l = false -> List.filter f l = [].
Proof.
  induction l as [| x l' IH]; simpl; [reflexivity |].
  destruct (f x); simpl; [discriminate | exact IH].
Qed.

Lemma filter_some {A : Type} (f : A -> bool) (l : list A) :
  existsb f l = true -> (1 <= length (List.filter f l))%nat.
Proof.
  induction l as [| x l' IH]; simpl; [discriminate |].
  destruct (f x); simpl; [lia | exact IH].
Qed.

Lemma filter_negb_none {A : Type} (f : A -> bool) (l : list A) :
  existsb f l = false -> List.filter (fun x => negb (f x)) l = l.
Proof.
  induction l as [| x l' IH]; simpl; [reflexivity |].
  destruct (f x); simpl; [discriminate |]. intros H. now rewrite IH.
Qed.

Lemma same_reaction_refl (r : reaction) : same_reaction r r = true.
Proof. unfold same_reaction. now rewrite !string_eqb_refl. Qed.

Lemma same_member_refl (um : string * string) : same_member um um = true.
Proof. unfold same_member. now rewrite !string_eqb_refl. Qed.

Lemma dup_error_is_duplicate_key : contains "duplicate key" (lower dup_error) = true.
Proof. reflexivity. Qed.

Lemma in_firstn {A : Type} (n : nat) (x : A) (l : list A) :
  In x (firstn n l) -> In x l.
Proof.
  intros H. rewrite <- (firstn_skipn n l). apply in_or_app. left. exact H.
Qed.

Lemma in_decorate (s : store) (ms : list message) (m : message) (p : author) :
  In (m, p) (decorate s ms) -> In m ms /\ p = resolve s (msg_user m).
Proof.
  unfold decorate. intros H. apply in_map_iff in H as [x [Hx Hin]].
  inversion Hx; subst. split; [exact Hin | reflexivity].
Qed.

(** The persistent direct-message read returns rows of the store. *)
Lemma persistent_dm_rows (s : store) (demo : gmap string (list message))
  (a b : string) (lim : nat) (m : message) (p : author) :
  is_demo b = false ->
  In (m, p) (fst (fst (get_direct_messages s demo a b lim))) ->
  In m (List.filter (is_dm_between a b) (messages s)) /\ p = resolve s (msg_user m).
Proof.
  intros Hb. unfold get_direct_messages. rewrite Hb.
  unfold q_direct_messages. destruct (down s TMessages); simpl; [intros [] |].
  intros H. apply in_decorate in H as [H Hp]. split; [| exact Hp].
  apply in_firstn in H. apply (proj1 (in_order_by_created _ _)) in H. exact H.
Qed.

Lemma resolve_missing (s : store) (uid : string) :
  profile_missing s uid -> resolve s uid = unknown_user.
Proof.
  unfold resolve, q_profile. intros [H | H]; [now rewrite H |].
  destruct (down s TProfiles); [reflexivity |].
  destruct (List.filter (fun p => String.eqb (up_id p) uid) (profiles s)) as [| p l] eqn:E;
    [reflexivity |].
  exfalso. apply H. exists p.
  assert (Hp : In p (List.filter (fun p => String.eqb (up_id p) uid) (profiles s)))
    by (rewrite E; left; reflexivity).
  apply List.filter_In in Hp as [Hp Hid]. apply String.eqb_eq in Hid. now split.
Qed.

Lemma channel_read_shape (s : store) (ch : string) (lim : nat) :
  Sorted le_created (map fst (fst (get_channel_messages s ch lim))) /\
  (length (fst (get_channel_messages s ch lim)) <= lim)%nat.
Proof.
  unfold get_channel_messages, q_channel_messages.
  destruct (down s TMessages); simpl; [split; [constructor | lia] |].
  rewrite map_fst_decorate. split.
  - apply firstn_sorted, order_by_created_sorted.
  - unfold decorate. rewrite length_map, length_firstn. lia.
Qed.

Lemma direct_read_shape (s : store) (demo : gmap string (list message))
  (a b : string) (lim : nat) :
  is_demo b = false ->
  Sorted le_created (map fst (fst (fst (get_direct_messages s demo a b lim)))) /\
  (length (fst (fst (get_direct_messages s demo a b lim))) <= lim)%nat /\
  snd (fst (get_direct_messages s demo a b lim)) = demo.
Proof.
  intros Hb. unfold get_direct_messages, q_direct_messages. rewrite Hb.
  destruct (down s TMessages); simpl; [split; [constructor | split; [lia | reflexivity]] |].
  rewrite map_fst_decorate. split; [| split; [| reflexivity]].
  - apply firstn_sorted, order_by_created_sorted.
  - unfold decorate. rewrite length_map, length_firstn. lia.
Qed.

(** A run in which the timer does not fire reads the active
    conversation, if any, and keeps [last_refresh]. *)
Lemma main_run_not_fired (s : store) (sess : session) (user_id : string) (now : Z)
  (send_pressed : bool) (message_input : string) :
  Z.ltb refresh_interval (now - last_refresh sess) = false ->
  performed_read (main_run s sess user_id now send_pressed message_input) = active sess /\
  last_refresh (c_session (main_run s sess user_id now send_pressed message_input)) =
  last_refresh sess.
Proof.
  intros Ht. unfold main_run, performed_read, active. rewrite Ht.
  destruct (view_mode sess), (current_channel sess), (current_dm_user sess);
    cbv iota beta;
    repeat match goal with
           | |- context [get_channel_messages ?a ?b ?c] =>
               destruct (get_channel_messages a b c)
           | |- context [get_direct_messages ?a ?b ?c ?d ?e] =>
               destruct (get_direct_messages a b c d e) as [[? ?] ?]
           | |- context [send_guard ?a ?b] => destruct (send_guard a b)
           | |- context [send_message ?a ?b ?c ?d ?e] =>
               destruct (send_message a b c d e) as [[? ?] ?]
           | |- context [send_direct_message ?a ?b ?c ?d ?e] =>
               destruct (send_direct_message a b c d e) as [[? ?] ?]
           end;
    repeat match goal with
           | |- context [match ?M with _ => _ end] => is_var M; destruct M
           end; split; reflexivity.
Qed.

Lemma main_run_fired (s : store) (sess : session) (user_id : string) (now : Z)
  (send_pressed : bool) (message_input : string) :
  Z.ltb refresh_interval (now - last_refresh sess) = true ->
  main_run s sess user_id now send_pressed message_input =
  mkCycle None true
    (mkSession (view_mode sess) (current_channel sess) (current_dm_user sess)
       (message_count sess) now (demo_messages sess)) s [].
Proof. intros Ht. unfold main_run. rewrite Ht. reflexivity. Qed.

Lemma join_channel_frame (s : store) (user_id channel_id : string) :
  let '(_, s', errs) := join_channel s user_id channel_id in
  channels s' = channels s /\ down s' = down s /\ messages s' = messages s /\
  profiles s' = profiles s /\ reactions s' = reactions s /\
  (errs = [] \/ exists e, errs = ["Error joining channel: " ++ e]).
Proof.
  unfold join_channel, insert_member.
  destruct (down s TMembers).
  - simpl. repeat split; auto. right. eexists. reflexivity.
  - destruct (existsb (same_member (user_id, channel_id)) (members s)).
    + rewrite dup_error_is_duplicate_key. repeat split; auto.
    + simpl. repeat split; auto.
Qed.

Lemma ensure_frame (s : store) (w : ws_table) (user_id : string) :
  let '(s', w', errs) := ensure_default_workspace_and_channel s w user_id in
  messages s' = messages s /\ profiles s' = profiles s /\ reactions s' = reactions s /\
  down s' = down s /\ (errs = [] \/ exists e, errs = ["Error joining channel: " ++ e]).
Proof.
  unfold ensure_default_workspace_and_channel.
  destruct (ws_down w); [repeat split; auto |].
  destruct (List.filter (fun x => String.eqb (snd x) "Default Workspace") (workspaces w))
    as [| [wid nm] rest]; cbv beta iota zeta;
  (destruct (down s TChannels) eqn:Hc; [repeat split; auto |]);
  match goal with
  | |- context [List.filter ?f (channels s)] => destruct (List.filter f (channels s)) as [| c cs]
  end.
  all: try (unfold insert_channel; rewrite Hc; destruct (channel_taken _ _ _);
            cbv beta iota zeta).
  all: try (solve [repeat split; auto]).
  all: match goal with
       | |- context [join_channel ?s1 ?u ?ch] =>
           pose proof (join_channel_frame s1 u ch) as J; destruct (join_channel s1 u ch) as [[ok s2] e]
       end.
  all: destruct J as [_ [Hd [Hm [Hp [Hr He]]]]]; rewrite Hd, Hm, Hp, Hr; repeat split; auto.
Qed.

Lemma create_profile_frame (s : store) (w : ws_table) (u : auth_user) :
  let '(_, s1, _, _) := create_or_update_user_profile s w u in
  messages s1 = messages s /\ reactions s1 = reactions s /\ down s1 = down s.
Proof.
  unfold create_or_update_user_profile, upsert_profile.
  destruct (down s TProfiles); [repeat split |].
  cbv beta iota zeta.
  match goal with
  | |- context [ensure_default_workspace_and_channel ?s1 ?w1 ?x] =>
      pose proof (ensure_frame s1 w1 x) as F;
      destruct (ensure_default_workspace_and_channel s1 w1 x) as [[s2 w2] e]
  end.
  destruct F as [Hm [_ [Hr [Hd _]]]]. rewrite Hm, Hr, Hd. repeat split.
Qed.

(** What the profile upsert and the sidebar keep: the messages, the
    reactions, the failure switches and every field of the session but
    [current_channel], which is only set when it was unset. *)
Lemma sidebar_frame (s : store) (w : ws_table) (sess : session) (u : auth_user) :
  let '(s1, _, sess1, _) := sidebar_run s w sess u in
  messages s1 = messages s /\ reactions s1 = reactions s /\ down s1 = down s /\
  view_mode sess1 = view_mode sess /\ current_dm_user sess1 = current_dm_user sess /\
  message_count sess1 = message_count sess /\ last_refresh sess1 = last_refresh sess /\
  demo_messages sess1 = demo_messages sess /\
  (forall ch, current_channel sess = Some ch -> current_channel sess1 = Some ch).
Proof.
  unfold sidebar_run.
  pose proof (create_profile_frame s w u) as F.
  destruct (create_or_update_user_profile s w u) as [[[p s1] w1] e1].
  destruct F as [Hm1 [Hr1 Hd1]].
  destruct (get_user_channels s1 (au_id u)) as [chs e2].
  assert (G : forall s2 chs1 e3,
    messages s2 = messages s -> reactions s2 = reactions s -> down s2 = down s ->
    let '(s3, _, sess1, _) :=
      (let sess1 := match current_channel sess, chs1 with
                    | None, c :: _ =>
                        mkSession (view_mode sess) (Some (ch_id c)) (current_dm_user sess)
                          (message_count sess) (last_refresh sess) (demo_messages sess)
                    | _, _ => sess
                    end in
       let '(_, e5) := get_all_users s2 (Some (au_id u)) in
       let e6 := if down s2 TChannels then ["Error loading channels: " ++ conn_error] else [] in
       (s2, w1, sess1, app e1 (app e2 (app e3 (app e5 e6))))) in
    messages s3 = messages s /\ reactions s3 = reactions s /\ down s3 = down s /\
    view_mode sess1 = view_mode sess /\ current_dm_user sess1 = current_dm_user sess /\
    message_count sess1 = message_count sess /\ last_refresh sess1 = last_refresh sess /\
    demo_messages sess1 = demo_messages sess /\
    (forall ch, current_channel sess = Some ch -> current_channel sess1 = Some ch)).
  { intros s2 chs1 e3 Hm Hr Hd. cbv zeta.
    destruct (get_all_users s2 (Some (au_id u))) as [us e5].
    destruct (current_channel sess) eqn:Ec, chs1; repeat split; auto;
      intros ch Hch; simpl; rewrite ?Ec; first [exact Hch | discriminate]. }
  destruct (existsb (fun c => String.eqb (ch_name c) "general") chs).
  - exact (G s1 chs [] Hm1 Hr1 Hd1).
  - pose proof (join_channel_frame s1 (au_id u) "1") as J.
    destruct (join_channel s1 (au_id u) "1") as [[ok s2] ej].
    destruct J as [_ [Hd [Hm [_ [Hr _]]]]].
    destruct (get_user_channels s2 (au_id u)) as [chs2 e4].
    apply G; congruence.
Qed.

(** The main area keeps the view of the session. *)
Lemma main_run_view (s : store) (sess : session) (user_id : string) (now : Z)
  (send_pressed : bool) (message_input : string) :
  let sess' := c_session (main_run s sess user_id now send_pressed message_input) in
  view_mode sess' = view_mode sess /\ current_channel sess' = current_channel sess /\
  current_dm_user sess' = current_dm_user sess.
Proof.
  unfold main_run.
  destruct (Z.ltb refresh_interval (now - last_refresh sess)); [repeat split |].
  destruct (view_mode sess), (current_channel sess), (current_dm_user sess);
    cbv iota beta zeta;
    repeat match goal with
           | |- context [get_channel_messages ?a ?b ?c] =>
               destruct (get_channel_messages a b c)
           | |- context [get_direct_messages ?a ?b ?c ?d ?e] =>
               destruct (get_direct_messages a b c d e) as [[? ?] ?]
           | |- context [send_guard ?a ?b] => destruct (send_guard a b)
           | |- context [send_message ?a ?b ?c ?d ?e] =>
               destruct (send_message a b c d e) as [[? ?] ?]
           | |- context [send_direct_message ?a ?b ?c ?d ?e] =>
               destruct (send_direct_message a b c d e) as [[? ?] ?]
           end;
    repeat match goal with
           | |- context [match ?M with _ => _ end] => is_var M; destruct M
           end; repeat split.
Qed.

(** A run of the main area with no send keeps the store. *)
Lemma main_run_idle_store (s : store) (sess : session) (user_id : string) (now : Z)
  (send_pressed : bool) (message_input : string) :
  send_guard send_pressed message_input = false ->
  c_store (main_run s sess user_id now send_pressed message_input) = s.
Proof.
  intros Hg. unfold main_run. rewrite Hg.
  destruct (Z.ltb refresh_interval (now - last_refresh sess)); [reflexivity |].
  lazymatch goal with
  | |- c_store (match ?M with _ => _ end) = _ => destruct M as [[? ?] ?]
  end.
  reflexivity.
Qed.

(* ================================================================== *)
(** * The claims *)

(** C1 (counterexample). [send_message] does no validation of its own:
    whitespace-only content is stripped to [""] and inserted; no error
    is raised or shown. *)
Lemma send_blank_inserts_row :
  let '(sent, s1, errs) := send_message empty_store "u1" "c1" "   " 7 in
  (exists m, sent = Some m /\ msg_content m = "") /\ errs = [] /\
  messages empty_store = [] /\ length (messages s1) = 1%nat.
Proof.
  vm_compute. split; [eexists; split; reflexivity |]. repeat split.
Qed.

(** C1 (amended). The only content check is the guard of the Send
    handler, [message_input and message_input.strip()], where [strip]
    removes Python's whitespace (the ASCII spaces, U+001C..U+001F,
    U+0085, U+00A0 and the other Unicode spaces): pressing Send with
    input that strips to [""] has exactly the effect of not pressing it,
    in the main area and over a whole run of the script, and no message
    row is written. *)
Theorem send_handler_blank_input (s : store) (w : ws_table) (sess : session)
  (u : auth_user) (user_id : string) (now : Z) (message_input : string) :
  strip message_input = "" ->
  main_run s sess user_id now true message_input =
  main_run s sess user_id now false message_input /\
  c_store (main_run s sess user_id now true message_input) = s /\
  script_run s w sess u now true message_input =
  script_run s w sess u now false message_input /\
  messages (c_store (fst (script_run s w sess u now true message_input))) = messages s.
Proof.
  intros H.
  assert (E : forall s0 sess0 uid,
             main_run s0 sess0 uid now true message_input =
             main_run s0 sess0 uid now false message_input).
  { intros s0 sess0 uid. unfold main_run. rewrite !(strip_blank_guard _ _ H). reflexivity. }
  split; [apply E |].
  split; [apply main_run_idle_store, strip_blank_guard, H |].
  unfold script_run. pose proof (sidebar_frame s w sess u) as F.
  destruct (sidebar_run s w sess u) as [[[s1 w1] sess1] e1].
  destruct F as [Hm _]. rewrite E. split; [reflexivity |].
  simpl. rewrite main_run_idle_store by apply strip_blank_guard, H. exact Hm.
Qed.

Lemma send_handler_blank_input_witness :
  strip odd_blank = "" /\
  main_run orphan_store (channel_session 0) "u1" 1 true odd_blank =
  main_run orphan_store (channel_session 0) "u1" 1 false odd_blank /\
  c_store (main_run orphan_store (channel_session 0) "u1" 1 true odd_blank) = orphan_store /\
  script_run orphan_store empty_ws (channel_session 0) sample_user 1 true odd_blank =
  script_run orphan_store empty_ws (channel_session 0) sample_user 1 false odd_blank /\
  messages (c_store (fst (script_run orphan_store empty_ws (channel_session 0) sample_user 1
                            true odd_blank))) = messages orphan_store.
Proof.
  assert (H : strip odd_blank = "") by reflexivity.
  split; [exact H |].
  exact (send_handler_blank_input orphan_store empty_ws (channel_session 0) sample_user "u1" 1
           odd_blank H).
Defined.

(** C2 (code bug). [get_channel_messages] orders ascending and then
    keeps the first [limit] rows, i.e. the oldest window: once a channel
    holds 50 messages, a new post is not in the list read that follows. *)
Theorem post_to_full_channel_not_listed :
  let '(sent, s1, _) := send_message full_channel_store "u1" "c1" "hello" 100 in
  option_map msg_id sent = Some "msg-50" /\
  length (fst (get_channel_messages s1 "c1" 50)) = 50%nat /\
  existsb (fun p => String.eqb (msg_id (fst p)) "msg-50")
    (fst (get_channel_messages s1 "c1" 50)) = false.
Proof.
  vm_compute. split; [reflexivity | split; reflexivity].
Qed.

(** C3. Adding the same reaction twice leaves exactly one reaction
    [(m, u, e)] and neither call shows an error; removing a reaction that
    does not exist succeeds ([True]), shows no error and changes nothing. *)
Theorem reaction_ops_idempotent (s : store) (message_id user_id emoji : string) :
  down s TReactions = false ->
  (count_reaction (mkReaction message_id user_id emoji) (reactions s) <= 1)%nat ->
  (let '(_, s1, e1) := add_reaction s message_id user_id emoji in
   let '(_, s2, e2) := add_reaction s1 message_id user_id emoji in
   count_reaction (mkReaction message_id user_id emoji) (reactions s2) = 1%nat /\
   e1 = [] /\ e2 = []) /\
  (forall s' : store,
     down s' TReactions = false ->
     count_reaction (mkReaction message_id user_id emoji) (reactions s') = 0%nat ->
     let '(ok, s'', e) := remove_reaction s' message_id user_id emoji in
     ok = true /\ e = [] /\ reactions s'' = reactions s').
Proof.
  intros Hd Hc. set (r := mkReaction message_id user_id emoji) in *. split.
  - unfold add_reaction, insert_reaction. fold r. rewrite Hd.
    destruct (existsb (same_reaction r) (reactions s)) eqn:E.
    + rewrite Hd, E. split; [| split; reflexivity].
      pose proof (filter_some _ _ E). unfold count_reaction in *. lia.
    + simpl. rewrite Hd. rewrite existsb_app. simpl. rewrite same_reaction_refl.
      rewrite orb_true_r. split; [| split; reflexivity].
      unfold count_reaction. simpl. rewrite List.filter_app, length_app. simpl.
      rewrite same_reaction_refl, (filter_none _ _ E). reflexivity.
  - intros s' Hd' Hc'. unfold remove_reaction. fold r. rewrite Hd'.
    split; [reflexivity | split; [reflexivity |]]. simpl.
    apply filter_negb_none. destruct (existsb (same_reaction r) (reactions s')) eqn:E;
      [| reflexivity].
    pose proof (filter_some _ _ E). unfold count_reaction in Hc'. lia.
Qed.

Lemma reaction_ops_idempotent_witness :
  (down empty_store TReactions = false /\
   (count_reaction (mkReaction "m1" "u1" "+1") (reactions empty_store) <= 1)%nat) /\
  (let '(_, s1, e1) := add_reaction empty_store "m1" "u1" "+1" in
   let '(_, s2, e2) := add_reaction s1 "m1" "u1" "+1" in
   count_reaction (mkReaction "m1" "u1" "+1") (reactions s2) = 1%nat /\
   e1 = [] /\ e2 = []).
Proof.
  assert (Hd : down empty_store TReactions = false) by reflexivity.
  assert (Hc : (count_reaction (mkReaction "m1" "u1" "+1") (reactions empty_store) <= 1)%nat)
    by (vm_compute; lia).
  split; [split; assumption |].
  exact (proj1 (reaction_ops_idempotent empty_store "m1" "u1" "+1" Hd Hc)).
Defined.

(** C8 (counterexample). A duplicate join is caught but [join_channel]
    returns [False], the value of a failed join, not that of a success. *)
Lemma duplicate_join_returns_false :
  fst (fst (join_channel (set_members empty_store [("u1", "c1")]) "u1" "c1")) = false /\
  fst (fst (join_channel empty_store "u1" "c1")) = true.
Proof. split; reflexivity. Qed.

(** C8 (amended). Joining a channel the user already belongs to shows no
    error and leaves the store unchanged, but returns [False]; two joins
    in a row leave exactly one membership row. *)
Theorem join_channel_duplicate (s : store) (user_id channel_id : string) :
  down s TMembers = false ->
  (count_member (user_id, channel_id) (members s) <= 1)%nat ->
  (let '(_, s1, e1) := join_channel s user_id channel_id in
   let '(ok2, s2, e2) := join_channel s1 user_id channel_id in
   count_member (user_id, channel_id) (members s2) = 1%nat /\
   e1 = [] /\ e2 = [] /\ ok2 = false /\ s2 = s1) /\
  (forall s' : store,
     down s' TMembers = false ->
     existsb (same_member (user_id, channel_id)) (members s') = true ->
     join_channel s' user_id channel_id = (false, s', [])).
Proof.
  intros Hd Hc.
  assert (Hdup : forall s' : store,
             down s' TMembers = false ->
             existsb (same_member (user_id, channel_id)) (members s') = true ->
             join_channel s' user_id channel_id = (false, s', [])).
  { intros s' Hd' He. unfold join_channel, insert_member. rewrite Hd', He.
    rewrite dup_error_is_duplicate_key. reflexivity. }
  split; [| exact Hdup].
  unfold join_channel at 1. unfold insert_member at 1. rewrite Hd.
  destruct (existsb (same_member (user_id, channel_id)) (members s)) eqn:E.
  - rewrite dup_error_is_duplicate_key. rewrite (Hdup s Hd E).
    split; [| repeat split].
    pose proof (filter_some _ _ E). unfold count_member in *. lia.
  - assert (E2 : existsb (same_member (user_id, channel_id))
                   (members (set_members s (app (members s) [(user_id, channel_id)]))) = true).
    { simpl. rewrite existsb_app. simpl. rewrite same_member_refl. apply orb_true_r. }
    cbv beta iota zeta. rewrite (Hdup (set_members s (app (members s) [(user_id, channel_id)])) Hd E2). split; [| repeat split].
    unfold count_member. simpl. rewrite List.filter_app, length_app. simpl.
    rewrite same_member_refl, (filter_none _ _ E). reflexivity.
Qed.

Lemma join_channel_duplicate_witness :
  (down empty_store TMembers = false /\
   (count_member ("u1", "c1") (members empty_store) <= 1)%nat) /\
  (let '(_, s1, e1) := join_channel empty_store "u1" "c1" in
   let '(ok2, s2, e2) := join_channel s1 "u1" "c1" in
   count_member ("u1", "c1") (members s2) = 1%nat /\
   e1 = [] /\ e2 = [] /\ ok2 = false /\ s2 = s1).
Proof.
  assert (Hd : down empty_store TMembers = false) by reflexivity.
  assert (Hc : (count_member ("u1", "c1") (members empty_store) <= 1)%nat) by (vm_compute; lia).
  split; [split; assumption |].
  exact (proj1 (join_channel_duplicate empty_store "u1" "c1" Hd Hc)).
Defined.

(** C4. A demo conversation never reaches the table store: its read
    gives the same result whatever the store holds, its send returns the
    synthesized dict without an insert, and the main area of a run on it
    ([main_run], Send included) leaves the store, hence every channel
    list, as it was.  The persistent direct-message read returns rows of the store
    only, so no overlay message can appear in it. *)
Theorem demo_overlay_isolation (s s' : store) (sess : session)
  (user_id d : string) (now : Z) (send_pressed : bool) (message_input : string) :
  is_demo d = true ->
  view_mode sess = ViewDm ->
  current_dm_user sess = Some d ->
  (forall demo lim,
     get_direct_messages s demo user_id d lim = get_direct_messages s' demo user_id d lim) /\
  (forall content,
     send_direct_message s user_id d content now =
     (Some (demo_sent user_id d content now), s, [])) /\
  c_store (main_run s sess user_id now send_pressed message_input) = s /\
  (forall ch lim,
     get_channel_messages (c_store (main_run s sess user_id now send_pressed message_input))
       ch lim = get_channel_messages s ch lim) /\
  (forall demo a b lim m p,
     is_demo b = false ->
     In (m, p) (fst (fst (get_direct_messages s demo a b lim))) -> In m (messages s)).
Proof.
  intros Hd Hv Hu.
  assert (Hsend : forall content,
             send_direct_message s user_id d content now =
             (Some (demo_sent user_id d content now), s, [])).
  { intros content. unfold send_direct_message. rewrite Hd. reflexivity. }
  assert (Hrun : c_store (main_run s sess user_id now send_pressed message_input) = s).
  { unfold main_run. rewrite Hv, Hu.
    destruct (Z.ltb refresh_interval (now - last_refresh sess)); [reflexivity |].
    destruct (current_channel sess);
    destruct (get_direct_messages s (demo_messages sess) user_id d 50) as [[l demo'] e];
    destruct (send_guard send_pressed message_input); try reflexivity;
    rewrite Hsend; reflexivity. }
  split; [| split; [exact Hsend | split; [exact Hrun | split]]].
  - intros demo lim. unfold get_direct_messages. rewrite Hd. reflexivity.
  - intros ch lim. rewrite Hrun. reflexivity.
  - intros demo a b lim m p Hb Hin.
    apply (persistent_dm_rows s demo a b lim m p Hb) in Hin as [Hin _].
    apply List.filter_In in Hin. apply Hin.
Qed.

Lemma demo_overlay_isolation_witness :
  (is_demo alex_id = true /\ view_mode (demo_session 0) = ViewDm /\
   current_dm_user (demo_session 0) = Some alex_id) /\
  c_store (main_run empty_store (demo_session 0) "u1" 1 true "hi") = empty_store.
Proof.
  assert (H1 : is_demo alex_id = true) by reflexivity.
  assert (H2 : view_mode (demo_session 0) = ViewDm) by reflexivity.
  assert (H3 : current_dm_user (demo_session 0) = Some alex_id) by reflexivity.
  split; [split; [exact H1 | split; [exact H2 | exact H3]] |].
  exact (proj1 (proj2 (proj2 (demo_overlay_isolation empty_store broken_store
           (demo_session 0) "u1" alex_id 1 true "hi" H1 H2 H3)))).
Defined.

(** C10. The id of a message sent to a demo identity is
    ["demo-msg-" ++ str(int(time.time()))]: it depends on the clock's
    whole second only, so two such sends in the same second, in any two
    conversations, get the same id. *)
Theorem demo_message_id_by_second (s1 s2 : store) (u1 u2 d1 d2 c1 c2 : string)
  (t1 t2 : Z) :
  is_demo d1 = true -> is_demo d2 = true -> unix_second t1 = unix_second t2 ->
  option_map msg_id (fst (fst (send_direct_message s1 u1 d1 c1 t1))) =
  Some ("demo-msg-" ++ str_of_Z (unix_second t1)) /\
  option_map msg_id (fst (fst (send_direct_message s2 u2 d2 c2 t2))) =
  option_map msg_id (fst (fst (send_direct_message s1 u1 d1 c1 t1))).
Proof.
  intros H1 H2 Ht. unfold send_direct_message. rewrite H1, H2. simpl.
  split; [reflexivity |]. rewrite Ht. reflexivity.
Qed.

Lemma demo_message_id_by_second_witness :
  (is_demo alex_id = true /\ is_demo sarah_id = true /\
   unix_second 1760000000100000 = unix_second 1760000000900000) /\
  option_map msg_id (fst (fst (send_direct_message broken_store "u2" sarah_id "yo"
                                 1760000000900000))) =
  option_map msg_id (fst (fst (send_direct_message empty_store "u1" alex_id "hi"
                                 1760000000100000))).
Proof.
  assert (H1 : is_demo alex_id = true) by reflexivity.
  assert (H2 : is_demo sarah_id = true) by reflexivity.
  assert (H3 : unix_second 1760000000100000 = unix_second 1760000000900000)
    by reflexivity.
  split; [split; [exact H1 | split; [exact H2 | exact H3]] |].
  exact (proj2 (demo_message_id_by_second empty_store broken_store "u1" "u2"
           alex_id sarah_id "hi" "yo" 1760000000100000 1760000000900000 H1 H2 H3)).
Defined.

(** C5 (counterexample). The demo-overlay path of [get_direct_messages]
    returns the whole overlay list: after 49 sends the conversation with
    [alex] has 51 messages and the read with the default limit 50
    returns all 51. *)
Lemma demo_read_exceeds_limit :
  length (fst (fst (get_direct_messages empty_store long_overlay "u1" alex_id 50))) = 51%nat.
Proof. vm_compute. reflexivity. Qed.

(** C5 (amended). [get_channel_messages] and the persistent path of
    [get_direct_messages] return at most [limit] rows, non-decreasing in
    [created_at] (the query orders by [created_at] alone: the order of
    rows with equal [created_at] is left to the database), and do not
    change any state; the demo-overlay path
    returns the whole overlay list of the conversation in append order,
    whatever [limit] is, seeding it on first access, and a repeated call
    returns the same list. *)
Theorem list_reads_ordered_capped (s : store) (demo : gmap string (list message))
  (ch a b : string) (lim : nat) :
  (Sorted le_created (map fst (fst (get_channel_messages s ch lim))) /\
   (length (fst (get_channel_messages s ch lim)) <= lim)%nat) /\
  (is_demo b = false ->
   Sorted le_created (map fst (fst (fst (get_direct_messages s demo a b lim)))) /\
   (length (fst (fst (get_direct_messages s demo a b lim))) <= lim)%nat /\
   snd (fst (get_direct_messages s demo a b lim)) = demo) /\
  (is_demo b = true ->
   (forall conv, demo !! demo_key a b = Some conv ->
      get_direct_messages s demo a b lim = (map (decorate_demo a) conv, demo, [])) /\
   (demo !! demo_key a b = None ->
      get_direct_messages s demo a b lim =
      (map (decorate_demo a) (demo_seed a b), <[demo_key a b := demo_seed a b]> demo, [])) /\
   (let '(l, demo', e) := get_direct_messages s demo a b lim in
    get_direct_messages s demo' a b lim = (l, demo', e))).
Proof.
  split; [apply channel_read_shape |]. split; [apply direct_read_shape |].
  intros Hb.
  assert (Hsome : forall d conv, d !! demo_key a b = Some conv ->
             get_direct_messages s d a b lim = (map (decorate_demo a) conv, d, [])).
  { intros d conv Hc. unfold get_direct_messages. rewrite Hb. cbv zeta. rewrite Hc.
    rewrite Hc. reflexivity. }
  assert (Hnone : demo !! demo_key a b = None ->
             get_direct_messages s demo a b lim =
             (map (decorate_demo a) (demo_seed a b), <[demo_key a b := demo_seed a b]> demo, [])).
  { intros Hc. unfold get_direct_messages. rewrite Hb. cbv zeta. rewrite Hc.
    rewrite lookup_insert_eq. reflexivity. }
  split; [exact (Hsome demo) | split; [exact Hnone |]].
  destruct (demo !! demo_key a b) as [conv |] eqn:Hc.
  - rewrite (Hsome demo conv Hc). exact (Hsome demo conv Hc).
  - rewrite (Hnone eq_refl). apply Hsome. apply lookup_insert_eq.
Qed.

Lemma list_reads_ordered_capped_witness :
  is_demo alex_id = true /\
  (let '(l, demo', e) := get_direct_messages empty_store ∅ "u1" alex_id 50 in
   get_direct_messages empty_store demo' "u1" alex_id 50 = (l, demo', e)).
Proof.
  assert (H : is_demo alex_id = true) by reflexivity.
  split; [exact H |].
  exact (proj2 (proj2 (proj2 (proj2 (list_reads_ordered_capped empty_store ∅ "c1" "u1"
           alex_id 50)) H))).
Defined.

(** C6 (counterexample). A demo identity has no profile row, yet its
    messages are decorated from the fixed name table, not with the
    placeholder. *)
Lemma demo_author_not_placeholder :
  profile_missing empty_store alex_id /\
  map snd (fst (fst (get_direct_messages empty_store ∅ "u1" alex_id 50))) =
  [Named "Alex Johnson" "alex"; Named "Alex Johnson" "alex"].
Proof.
  split.
  - right. intros [p [Hp _]]. destruct Hp.
  - vm_compute. reflexivity.
Qed.

(** C6 (amended). On the persistent read paths (channel messages,
    direct messages with a non-demo counterpart, reactions) a row whose
    author has no profile row, or whose profile lookup raises, carries
    the placeholder [{"display_name": "Unknown User", "username":
    "unknown"}], and every row selected is returned: a missing profile
    never makes the read fail or drop rows.  Rows of a demo conversation
    are decorated from the fixed name table, ["You"]/["you"] for the
    caller's own messages, without any lookup: the read does not depend
    on the store. *)
Theorem missing_profile_placeholder (s : store) (uid : string) :
  profile_missing s uid ->
  (forall ch lim m p,
     In (m, p) (fst (get_channel_messages s ch lim)) -> msg_user m = uid ->
     p = unknown_user) /\
  (forall demo a b lim m p,
     is_demo b = false ->
     In (m, p) (fst (fst (get_direct_messages s demo a b lim))) -> msg_user m = uid ->
     p = unknown_user) /\
  (forall mid r p,
     In (r, p) (get_message_reactions s mid) -> r_user r = uid -> p = unknown_user) /\
  (forall ch lim rows,
     q_channel_messages s ch lim = Ok rows ->
     map fst (fst (get_channel_messages s ch lim)) = rows) /\
  (forall demo a b lim rows,
     is_demo b = false -> q_direct_messages s a b lim = Ok rows ->
     map fst (fst (fst (get_direct_messages s demo a b lim))) = rows) /\
  (forall mid,
     down s TReactions = false ->
     map fst (get_message_reactions s mid) =
     List.filter (fun r => String.eqb (r_message r) mid) (reactions s)) /\
  (forall demo a b lim m p,
     is_demo b = true ->
     In (m, p) (fst (fst (get_direct_messages s demo a b lim))) ->
     p = (if String.eqb (msg_user m) a then Named "You" "you" else demo_user_name (msg_user m))) /\
  (forall s' demo a b lim,
     is_demo b = true ->
     get_direct_messages s demo a b lim = get_direct_messages s' demo a b lim).
Proof.
  intros Hm. repeat split.
  - intros ch lim m p Hin Hu. unfold get_channel_messages in Hin.
    destruct (q_channel_messages s ch lim); simpl in Hin; [| destruct Hin].
    apply in_decorate in Hin as [_ Hp]. subst. now apply resolve_missing.
  - intros demo a b lim m p Hb Hin Hu.
    apply (persistent_dm_rows s demo a b lim m p Hb) in Hin as [_ Hp].
    subst. now apply resolve_missing.
  - intros mid r p Hin Hu. unfold get_message_reactions in Hin.
    destruct (down s TReactions); [destruct Hin |].
    apply in_map_iff in Hin as [x [Hx _]]. inversion Hx; subst.
    now apply resolve_missing.
  - intros ch lim rows Hq. unfold get_channel_messages. rewrite Hq. simpl.
    apply map_fst_decorate.
  - intros demo a b lim rows Hb Hq. unfold get_direct_messages. rewrite Hb, Hq. simpl.
    apply map_fst_decorate.
  - intros mid Hd. unfold get_message_reactions. rewrite Hd.
    rewrite map_map. simpl. apply map_id.
  - intros demo a b lim m p Hb Hin. unfold get_direct_messages in Hin. rewrite Hb in Hin.
    simpl in Hin. apply in_map_iff in Hin as [x [Hx _]].
    unfold decorate_demo in Hx.
    destruct (String.eqb (msg_user x) a) eqn:E; injection Hx as <- <-; rewrite E; reflexivity.
  - intros s' demo a b lim Hb. unfold get_direct_messages. rewrite Hb. reflexivity.
Qed.

Lemma missing_profile_placeholder_witness :
  profile_missing orphan_store "u9" /\
  fst (get_channel_messages orphan_store "c1" 50) <> [] /\
  (forall m p,
     In (m, p) (fst (get_channel_messages orphan_store "c1" 50)) -> msg_user m = "u9" ->
     p = unknown_user) /\
  map snd (fst (get_channel_messages orphan_store "c1" 50)) =
  [unknown_user; Found (mkProfile "u1" "ann" "Ann" "" "online")].
Proof.
  assert (H : profile_missing orphan_store "u9").
  { right. intros [p [Hp Hid]]. simpl in Hp. destruct Hp as [<- | []]. discriminate. }
  split; [exact H | split; [vm_compute; discriminate | split]].
  - exact (proj1 (missing_profile_placeholder orphan_store "u9" H) "c1" 50%nat).
  - vm_compute. reflexivity.
Defined.




(** C9 (counterexample). With exactly 5 seconds elapsed the timer does
    not fire ([>] is strict): [last_refresh] is not reset.  And a run in
    which the timer does not fire is not a no-op: it performs the list
    read (here after 1 second). *)
Lemma refresh_timer_counterexample :
  last_refresh (c_session (main_run empty_store (channel_session 0) "u1"
                             refresh_interval false "")) = 0 /\
  c_rerun (main_run empty_store (channel_session 0) "u1" refresh_interval false "") = false /\
  performed_read (main_run empty_store (channel_session 0) "u1" 1000000 false "") = true.
Proof. vm_compute. repeat split. Qed.

(** C9 (amended). A run of the script for a signed-in user first does
    the profile upsert and the sidebar ([sidebar_run]), which may write
    (the profile row, the default workspace and channel, memberships)
    and, when no channel is selected, selects the user's first channel;
    it keeps [last_refresh], the view mode and the direct-message peer.
    Then, if more than 5 seconds (strictly) have elapsed since
    [last_refresh], the run resets [last_refresh] to now and reruns
    without the list read and without a send, the store staying as the
    sidebar left it, and the rerun (within the next 5 seconds) reads the
    conversation then active; otherwise [last_refresh] is kept and the
    run reads the active conversation whenever there is one.  A
    successful send reruns at once, without touching [last_refresh]. *)
Theorem sync_loop_run (s : store) (w : ws_table) (sess : session) (u : auth_user) (now : Z)
  (send_pressed : bool) (message_input : string) :
  let '(s1, w1, sess1, _) := sidebar_run s w sess u in
  let '(c, w2) := script_run s w sess u now send_pressed message_input in
  w2 = w1 /\ last_refresh sess1 = last_refresh sess /\
  view_mode sess1 = view_mode sess /\ current_dm_user sess1 = current_dm_user sess /\
  (forall ch, current_channel sess = Some ch -> current_channel sess1 = Some ch) /\
  (refresh_interval < now - last_refresh sess ->
   performed_read c = false /\ c_rerun c = true /\ last_refresh (c_session c) = now /\
   c_store c = s1 /\
   (forall now' send' input', now' - now <= refresh_interval ->
      let '(c', _) := script_run s1 w1 (c_session c) u now' send' input' in
      performed_read c' = active (c_session c') /\ last_refresh (c_session c') = now)) /\
  (now - last_refresh sess <= refresh_interval ->
   last_refresh (c_session c) = last_refresh sess /\
   performed_read c = active sess1 /\
   (send_guard send_pressed message_input = true ->
    (forall ch, view_mode sess = ViewChannel -> current_channel sess1 = Some ch ->
       down s TMessages = false -> c_rerun c = true) /\
    (forall d, view_mode sess = ViewDm -> current_dm_user sess = Some d ->
       (is_demo d || negb (down s TMessages))%bool = true -> c_rerun c = true))).
Proof.
  pose proof (sidebar_frame s w sess u) as F.
  unfold script_run at 1.
  destruct (sidebar_run s w sess u) as [[[s1 w1] sess1] e1].
  destruct F as [Hm [Hr [Hd [Hv [Hdm [Hcnt [Hl [Hdemo Hcur]]]]]]]].
  cbv beta iota zeta.
  split; [reflexivity |]. split; [exact Hl |]. split; [exact Hv |]. split; [exact Hdm |].
  split; [exact Hcur |]. split.
  - intros Hlt.
    assert (Ht : Z.ltb refresh_interval (now - last_refresh sess1) = true)
      by (rewrite Hl; apply Z.ltb_lt; exact Hlt).
    rewrite (main_run_fired _ _ _ _ _ _ Ht). cbn [c_read c_rerun c_session c_store c_errors].
    split; [reflexivity | split; [reflexivity | split; [reflexivity | split; [reflexivity |]]]].
    intros now' send' input' Hle. unfold script_run.
    match goal with
    | |- context [sidebar_run s1 w1 ?r u] =>
        pose proof (sidebar_frame s1 w1 r u) as F2;
        destruct (sidebar_run s1 w1 r u) as [[[s2 w2] sess2] e2]
    end.
    destruct F2 as [_ [_ [_ [_ [_ [_ [Hl2 _]]]]]]]. simpl in Hl2.
    cbv beta iota zeta.
    assert (Ht2 : Z.ltb refresh_interval (now' - last_refresh sess2) = false)
      by (rewrite Hl2; apply Z.ltb_ge; exact Hle).
    destruct (main_run_not_fired s2 sess2 (au_id u) now' send' input' Ht2) as [Hr2 Hl2'].
    destruct (main_run_view s2 sess2 (au_id u) now' send' input') as [V1 [V2 V3]].
    cbn [c_read c_rerun c_session c_store c_errors]. split.
    + unfold performed_read in *. cbn [c_read]. rewrite Hr2. unfold active.
      rewrite V1, V2, V3. reflexivity.
    + rewrite Hl2'. exact Hl2.
  - intros Hle.
    assert (Ht : Z.ltb refresh_interval (now - last_refresh sess1) = false)
      by (rewrite Hl; apply Z.ltb_ge; exact Hle).
    destruct (main_run_not_fired s1 sess1 (au_id u) now send_pressed message_input Ht)
      as [Hread Hlast].
    cbn [c_read c_rerun c_session c_store c_errors].
    split; [rewrite <- Hl; exact Hlast | split; [exact Hread |]].
    intros Hg. split.
    + intros ch Hv' Hc Hdn. unfold main_run. rewrite Ht, Hg, Hv, Hv', Hc.
      destruct (get_channel_messages s1 ch 50) as [l e].
      unfold send_message, insert_message. rewrite Hd, Hdn. reflexivity.
    + intros d Hv' Hu Hok. unfold main_run. rewrite Ht, Hg, Hv, Hv', Hdm, Hu.
      destruct (current_channel sess1);
      destruct (get_direct_messages s1 (demo_messages sess1) (au_id u) d 50) as [[l demo'] e];
      unfold send_direct_message;
      destruct (is_demo d); simpl in Hok; try reflexivity;
      apply negb_true_iff in Hok; unfold insert_message; rewrite Hd, Hok; reflexivity.
Qed.

Lemma sync_loop_run_witness :
  1000000 - last_refresh fresh_session <= refresh_interval /\
  current_channel fresh_session = None /\
  performed_read (fst (script_run empty_store empty_ws fresh_session sample_user 1000000
                         false "")) = true /\
  refresh_interval < 6000000 - last_refresh fresh_session /\
  c_rerun (fst (script_run empty_store empty_ws fresh_session sample_user 6000000
                  false "")) = true /\
  performed_read (fst (script_run (fst (fst (fst (sidebar_run empty_store empty_ws
                                                   fresh_session sample_user))))
                         (snd (fst (fst (sidebar_run empty_store empty_ws
                                                     fresh_session sample_user))))
                         (c_session (fst (script_run empty_store empty_ws fresh_session
                                            sample_user 6000000 false "")))
                         sample_user 6000000 false "")) = true.
Proof.
  assert (H1 : 1000000 - last_refresh fresh_session <= refresh_interval)
    by (unfold refresh_interval; simpl; lia).
  assert (H2 : refresh_interval < 6000000 - last_refresh fresh_session)
    by (unfold refresh_interval; simpl; lia).
  split; [exact H1 | split; [reflexivity |]].
  split.
  - pose proof (sync_loop_run empty_store empty_ws fresh_session sample_user 1000000 false "")
      as T.
    destruct (sidebar_run empty_store empty_ws fresh_session sample_user)
      as [[[s1 w1] sess1] e1] eqn:Esb.
    destruct (script_run empty_store empty_ws fresh_session sample_user 1000000 false "")
      as [c w2].
    destruct T as [_ [_ [_ [_ [_ [_ T3]]]]]].
    destruct (T3 H1) as [_ [Hr _]].
    vm_compute in Esb. injection Esb as _ _ Hsess _. subst sess1.
    simpl. rewrite Hr. reflexivity.
  - split; [exact H2 | split].
    + pose proof (sync_loop_run empty_store empty_ws fresh_session sample_user 6000000 false "")
        as T.
      destruct (sidebar_run empty_store empty_ws fresh_session sample_user)
        as [[[s1 w1] sess1] e1].
      destruct (script_run empty_store empty_ws fresh_session sample_user 6000000 false "")
        as [c w2].
      destruct T as [_ [_ [_ [_ [_ [T2 _]]]]]].
      destruct (T2 H2) as [_ [Hrr _]]. exact Hrr.
    + vm_compute. reflexivity.
Defined.

(* ================================================================== *)
(** * Further properties of the code *)

(* ------------------------------------------------------------------ *)
(** ** Grouping of reactions *)

Lemma bump_lookup (x e n : string) (acc : list (string * (nat * list string))) :
  group_lookup x (bump_emoji e n acc) =
  if String.eqb e x then
    Some (match group_lookup e acc with
          | Some (c, ns) => (S c, app ns [n])
          | None => (1%nat, [n])
          end)
  else group_lookup x acc.
Proof.
  induction acc as [| [e' [c ns]] acc IH]; simpl.
  - destruct (String.eqb e x); reflexivity.
  - destruct (String.eqb e' e) eqn:E1; simpl.
    + apply String.eqb_eq in E1. subst e'. try rewrite string_eqb_refl.
      destruct (String.eqb e x); reflexivity.
    + rewrite IH. destruct (String.eqb e' x) eqn:E3, (String.eqb e x) eqn:E4; auto.
      apply String.eqb_eq in E3, E4. subst. rewrite string_eqb_refl in E1. discriminate.
Qed.

Lemma fold_group_lookup (e : string) (rs : list (reaction * author))
  (acc : list (string * (nat * list string))) :
  group_lookup e
    (fold_left (fun acc ra => bump_emoji (r_emoji (fst ra)) (author_name (snd ra)) acc) rs acc) =
  match List.filter (fun ra => String.eqb (r_emoji (fst ra)) e) rs with
  | [] => group_lookup e acc
  | l => Some (match group_lookup e acc with
               | Some (c, ns) => (c + length l, app ns (map (fun ra => author_name (snd ra)) l))%nat
               | None => (length l, map (fun ra => author_name (snd ra)) l)
               end)
  end.
Proof.
  revert acc. induction rs as [| ra rs IH]; intros acc; simpl; [reflexivity |].
  rewrite IH, bump_lookup.
  destruct (String.eqb (r_emoji (fst ra)) e) eqn:E.
  - apply String.eqb_eq in E. rewrite E.
    destruct (List.filter (fun ra0 => String.eqb (r_emoji (fst ra0)) e) rs) as [| b l];
      destruct (group_lookup e acc) as [[c ns] |]; simpl; try reflexivity.
    + do 2 f_equal. lia.
    + do 2 f_equal; [lia | now rewrite <- app_assoc].
  - reflexivity.
Qed.

Lemma bump_keys_in (x e n : string) (acc : list (string * (nat * list string))) :
  In x (map fst (bump_emoji e n acc)) <-> x = e \/ In x (map fst acc).
Proof.
  induction acc as [| [e' [c ns]] acc IH]; simpl.
  - intuition congruence.
  - destruct (String.eqb e' e) eqn:E; simpl.
    + apply String.eqb_eq in E. subst. intuition congruence.
    + rewrite IH. intuition congruence.
Qed.

Lemma bump_keys_nodup (e n : string) (acc : list (string * (nat * list string))) :
  List.NoDup (map fst acc) -> List.NoDup (map fst (bump_emoji e n acc)).
Proof.
  induction acc as [| [e' [c ns]] acc IH]; simpl; intros Hnd.
  - constructor; [intros [] | constructor].
  - inversion Hnd as [| ? ? Hnin Hnd']; subst.
    destruct (String.eqb e' e) eqn:E; simpl; [exact Hnd |].
    constructor; [| now apply IH].
    rewrite bump_keys_in. intros [Heq | Hin]; [| contradiction].
    subst. rewrite string_eqb_refl in E. discriminate.
Qed.

Lemma fold_group_keys (rs : list (reaction * author))
  (acc : list (string * (nat * list string))) :
  List.NoDup (map fst acc) ->
  List.NoDup (map fst
    (fold_left (fun acc ra => bump_emoji (r_emoji (fst ra)) (author_name (snd ra)) acc) rs acc)) /\
  (forall x, In x (map fst
    (fold_left (fun acc ra => bump_emoji (r_emoji (fst ra)) (author_name (snd ra)) acc) rs acc)) <->
    In x (map fst acc) \/ exists ra, In ra rs /\ r_emoji (fst ra) = x).
Proof.
  revert acc. induction rs as [| ra rs IH]; intros acc Hnd; simpl.
  - split; [exact Hnd |]. intros x. split; [tauto |]. intros [H | [? [[] _]]]. exact H.
  - destruct (IH _ (bump_keys_nodup (r_emoji (fst ra)) (author_name (snd ra)) acc Hnd))
      as [Hnd' Hin]. split; [exact Hnd' |].
    intros x. rewrite Hin, bump_keys_in. split.
    + intros [[Heq | H] | [rb [Hrb Hx]]].
      * right. exists ra. auto.
      * left. exact H.
      * right. exists rb. auto.
    + intros [H | [rb [[Hrb | Hrb] Hx]]].
      * left. right. exact H.
      * subst. left. left. reflexivity.
      * right. exists rb. auto.
Qed.

Lemma group_lookup_in (e : string) (v : nat * list string)
  (g : list (string * (nat * list string))) :
  List.NoDup (map fst g) -> In (e, v) g -> group_lookup e g = Some v.
Proof.
  induction g as [| [e' v'] g IH]; simpl; [intros _ [] |].
  intros Hnd [Heq | Hin]; inversion Hnd as [| ? ? Hnin Hnd']; subst.
  - injection Heq as -> ->. now rewrite string_eqb_refl.
  - destruct (String.eqb e' e) eqn:E; [| now apply IH].
    apply String.eqb_eq in E. subst. exfalso. apply Hnin.
    apply (in_map fst) in Hin. exact Hin.
Qed.

Lemma user_has_reacted_spec (rs : list (reaction * author)) (u e : string) :
  user_has_reacted rs u e = true <->
  exists ra, In ra rs /\ r_user (fst ra) = u /\ r_emoji (fst ra) = e.
Proof.
  unfold user_has_reacted. rewrite existsb_exists. split.
  - intros [ra [Hin H]]. apply andb_true_iff in H as [H1 H2].
    apply String.eqb_eq in H1, H2. eauto.
  - intros [ra [Hin [H1 H2]]]. exists ra. split; [exact Hin |].
    rewrite H1, H2, !string_eqb_refl. reflexivity.
Qed.

(* ------------------------------------------------------------------ *)
(** ** The reactions table *)

Lemma same_reaction_eq (a b : reaction) : same_reaction a b = true -> a = b.
Proof.
  destruct a as [m1 u1 e1], b as [m2 u2 e2]. unfold same_reaction. simpl.
  intros H. apply andb_true_iff in H as [H H3]. apply andb_true_iff in H as [H1 H2].
  apply String.eqb_eq in H1, H2, H3. subst. reflexivity.
Qed.

Lemma nodup_reactions_unique (l : list reaction) : List.NoDup l -> reactions_unique l.
Proof.
  intros Hnd r. unfold count_reaction.
  induction Hnd as [| x l Hx Hnd IH]; simpl; [lia |].
  destruct (same_reaction r x) eqn:E; simpl; [| exact IH].
  apply same_reaction_eq in E. subst x.
  rewrite filter_none; [simpl; lia |].
  destruct (existsb (same_reaction r) l) eqn:E'; [| reflexivity].
  apply existsb_exists in E' as [y [Hy Hr]]. apply same_reaction_eq in Hr. subst.
  contradiction.
Qed.

Lemma same_reaction_sym (a b : reaction) : same_reaction a b = same_reaction b a.
Proof.
  unfold same_reaction. now rewrite (String.eqb_sym (r_message a)),
    (String.eqb_sym (r_user a)), (String.eqb_sym (r_emoji a)).
Qed.

Lemma reacted_in_table (f : reaction -> author) (l : list reaction) (mid u e : string) :
  user_has_reacted (map (fun r => (r, f r))
                      (List.filter (fun r => String.eqb (r_message r) mid) l)) u e =
  existsb (same_reaction (mkReaction mid u e)) l.
Proof.
  induction l as [| r l IH]; simpl; [reflexivity |].
  unfold same_reaction at 1. simpl.
  rewrite (String.eqb_sym mid), (String.eqb_sym u), (String.eqb_sym e).
  destruct (String.eqb (r_message r) mid); simpl; [| exact IH].
  unfold user_has_reacted in IH |- *. simpl. rewrite IH. reflexivity.
Qed.

Lemma reacted_get (s : store) (mid u e : string) :
  down s TReactions = false ->
  user_has_reacted (get_message_reactions s mid) u e =
  existsb (same_reaction (mkReaction mid u e)) (reactions s).
Proof.
  intros Hd. unfold get_message_reactions. rewrite Hd. apply reacted_in_table.
Qed.

Lemma count_reaction_app (r : reaction) (l l' : list reaction) :
  count_reaction r (app l l') = (count_reaction r l + count_reaction r l')%nat.
Proof. unfold count_reaction. now rewrite List.filter_app, length_app. Qed.

Lemma count_reaction_single (r x : reaction) :
  count_reaction r [x] = if same_reaction r x then 1%nat else 0%nat.
Proof. unfold count_reaction. simpl. now destruct (same_reaction r x). Qed.

Lemma count_reaction_zero (r : reaction) (l : list reaction) :
  existsb (same_reaction r) l = false -> count_reaction r l = 0%nat.
Proof. intros H. unfold count_reaction. now rewrite filter_none. Qed.

Lemma existsb_count_reaction (r : reaction) (l : list reaction) :
  existsb (same_reaction r) l = false <-> count_reaction r l = 0%nat.
Proof.
  split; [apply count_reaction_zero |].
  unfold count_reaction. intros H. destruct (existsb (same_reaction r) l) eqn:E; [| reflexivity].
  apply filter_some in E. lia.
Qed.

Lemma count_reaction_remove (r x : reaction) (l : list reaction) :
  count_reaction r (List.filter (fun y => negb (same_reaction x y)) l) =
  if same_reaction r x then 0%nat else count_reaction r l.
Proof.
  unfold count_reaction.
  destruct (same_reaction r x) eqn:E.
  - apply same_reaction_eq in E. subst x.
    induction l as [| y l IH]; simpl; [reflexivity |].
    destruct (same_reaction r y) eqn:Ery; simpl; try rewrite Ery; exact IH.
  - induction l as [| y l IH]; simpl; [reflexivity |].
    destruct (same_reaction x y) eqn:Exy; simpl.
    + apply same_reaction_eq in Exy. subst y. rewrite E. exact IH.
    + destruct (same_reaction r y); simpl; [f_equal |]; exact IH.
Qed.

Lemma existsb_remove (x : reaction) (l : list reaction) :
  existsb (same_reaction x) (List.filter (fun y => negb (same_reaction x y)) l) = false.
Proof.
  induction l as [| y l IH]; simpl; [reflexivity |].
  destruct (same_reaction x y) eqn:E; simpl; [exact IH |]. rewrite E. exact IH.
Qed.

(** The store after a click on a reaction button, in both branches. *)
Lemma click_store (s : store) (mid u e : string) :
  down s TReactions = false ->
  let r := mkReaction mid u e in
  click_reaction_button s mid u e =
  (if existsb (same_reaction r) (reactions s)
   then set_reactions s (List.filter (fun x => negb (same_reaction r x)) (reactions s))
   else set_reactions s (app (reactions s) [r]), []).
Proof.
  intros Hd r. unfold click_reaction_button. rewrite reacted_get by exact Hd.
  unfold remove_reaction, add_reaction, insert_reaction. rewrite Hd. fold r.
  destruct (existsb (same_reaction r) (reactions s)); reflexivity.
Qed.

Lemma users_of_unique (l : list reaction) (mid e : string) :
  (forall r, (count_reaction r l <= 1)%nat) ->
  List.NoDup (map r_user (List.filter (fun r => (String.eqb (r_message r) mid &&
                                                 String.eqb (r_emoji r) e)%bool) l)).
Proof.
  induction l as [| x l IH]; intros Hu; simpl; [constructor |].
  assert (Ht : forall r, (count_reaction r l <= 1)%nat).
  { intros r. specialize (Hu r). unfold count_reaction in *. simpl in Hu.
    destruct (same_reaction r x); simpl in Hu; lia. }
  destruct (String.eqb (r_message x) mid && String.eqb (r_emoji x) e)%bool eqn:Ex;
    [| now apply IH].
  simpl. constructor; [| now apply IH].
  intros Hin. apply in_map_iff in Hin as [y [Hy Hin]].
  apply List.filter_In in Hin as [Hin Hye].
  apply andb_true_iff in Ex as [Ex1 Ex2]. apply andb_true_iff in Hye as [Hy1 Hy2].
  apply String.eqb_eq in Ex1, Ex2, Hy1, Hy2.
  assert (Hs : same_reaction x y = true).
  { unfold same_reaction. rewrite Ex1, Ex2, Hy1, Hy2, Hy, !string_eqb_refl. reflexivity. }
  specialize (Hu x). unfold count_reaction in Hu. simpl in Hu.
  rewrite same_reaction_refl in Hu. simpl in Hu.
  assert (Hc := filter_some (same_reaction x) l).
  rewrite existsb_exists in Hc. specialize (Hc (ex_intro _ y (conj Hin Hs))). lia.
Qed.

Lemma users_of_get (f : reaction -> author) (l : list reaction) (mid e : string) :
  map (fun ra => r_user (fst ra))
    (List.filter (fun ra => String.eqb (r_emoji (fst ra)) e)
       (map (fun r => (r, f r)) (List.filter (fun r => String.eqb (r_message r) mid) l))) =
  map r_user (List.filter (fun r => (String.eqb (r_message r) mid &&
                                     String.eqb (r_emoji r) e)%bool) l).
Proof.
  induction l as [| x l IH]; simpl; [reflexivity |].
  destruct (String.eqb (r_message x) mid); simpl; [| exact IH].
  destruct (String.eqb (r_emoji x) e); simpl; [f_equal |]; exact IH.
Qed.

Lemma unique_insert (l : list reaction) (r : reaction) :
  reactions_unique l -> existsb (same_reaction r) l = false ->
  reactions_unique (app l [r]).
Proof.
  intros Hu Hn x. rewrite count_reaction_app, count_reaction_single.
  destruct (same_reaction x r) eqn:E; [| specialize (Hu x); lia].
  apply same_reaction_eq in E. subst x. rewrite count_reaction_zero by exact Hn. lia.
Qed.

Lemma unique_remove (l : list reaction) (r : reaction) :
  reactions_unique l ->
  reactions_unique (List.filter (fun y => negb (same_reaction r y)) l).
Proof.
  intros Hu x. rewrite count_reaction_remove.
  destruct (same_reaction x r); [lia | apply Hu].
Qed.

(** X1: the grouped entry of an emoji under a message holds the number
    of its reactions and the names of their authors (display name, else
    username) in reaction order; an emoji without reactions has no entry. *)
Theorem reaction_groups_count (rs : list (reaction * author)) (e : string) :
  group_lookup e (group_reactions rs) =
  match List.filter (fun ra => String.eqb (r_emoji (fst ra)) e) rs with
  | [] => None
  | l => Some (length l, map (fun ra => author_name (snd ra)) l)
  end.
Proof.
  unfold group_reactions. rewrite fold_group_lookup. simpl.
  destruct (List.filter (fun ra => String.eqb (r_emoji (fst ra)) e) rs); reflexivity.
Qed.

(** X2: the grouped emojis are pairwise distinct, and they are exactly
    the emojis of the message's reactions. *)
Theorem reaction_groups_keys (rs : list (reaction * author)) :
  List.NoDup (map fst (group_reactions rs)) /\
  (forall e, In e (map fst (group_reactions rs)) <->
             exists ra, In ra rs /\ r_emoji (fst ra) = e).
Proof.
  destruct (fold_group_keys rs [] (List.NoDup_nil _)) as [Hnd Hin].
  split; [exact Hnd |]. intros e. unfold group_reactions. rewrite Hin. simpl. tauto.
Qed.

(** X3: every reaction button shows the number of reactions with its
    emoji and is highlighted exactly when the current user has reacted
    with that emoji; every emoji that was used has a button. *)
Theorem reaction_buttons_spec (rs : list (reaction * author)) (user_id : string) :
  (forall e c b, In (e, c, b) (reaction_buttons rs user_id) ->
     c = length (List.filter (fun ra => String.eqb (r_emoji (fst ra)) e) rs) /\
     (b = true <-> exists ra, In ra rs /\ r_user (fst ra) = user_id /\ r_emoji (fst ra) = e)) /\
  (forall e, (exists ra, In ra rs /\ r_emoji (fst ra) = e) ->
     exists c b, In (e, c, b) (reaction_buttons rs user_id)).
Proof.
  destruct (fold_group_keys rs [] (List.NoDup_nil _)) as [Hnd Hkeys].
  fold (group_reactions rs) in Hnd, Hkeys.
  split.
  - intros e c b Hin. unfold reaction_buttons in Hin.
    apply in_map_iff in Hin as [[e' [c' ns]] [Heq Hin]]. simpl in Heq.
    injection Heq as -> -> <-.
    apply group_lookup_in in Hin; [| exact Hnd].
    unfold group_reactions in Hin. rewrite fold_group_lookup in Hin. simpl in Hin.
    split; [| apply user_has_reacted_spec].
    destruct (List.filter (fun ra => String.eqb (r_emoji (fst ra)) e) rs);
      [discriminate | injection Hin as <- _; reflexivity].
  - intros e He.
    assert (He' : In e (map fst (group_reactions rs))) by (apply Hkeys; right; exact He).
    apply in_map_iff in He' as [[e' [c ns]] [Heq Hin]]. simpl in Heq. subst e'.
    exists c, (user_has_reacted rs user_id e). unfold reaction_buttons.
    apply in_map_iff. exists (e, (c, ns)). split; [reflexivity | exact Hin].
Qed.

Lemma reaction_buttons_spec_witness :
  In ("👍", 2%nat, true) (reaction_buttons sample_reactions "u1") /\
  2%nat = length (List.filter (fun ra => String.eqb (r_emoji (fst ra)) "👍") sample_reactions).
Proof.
  assert (H : In ("👍", 2%nat, true) (reaction_buttons sample_reactions "u1"))
    by (vm_compute; auto).
  split; [exact H |].
  exact (proj1 (proj1 (reaction_buttons_spec sample_reactions "u1") _ _ _ H)).
Defined.

(** X4: when the table holds each (message, user, emoji) at most once,
    the reactions read for a message with a given emoji come from
    pairwise distinct users, so a button's count is the number of users
    who reacted with it. *)
Theorem reaction_count_distinct_users (s : store) (message_id emoji : string) :
  reactions_unique (reactions s) ->
  List.NoDup (map (fun ra => r_user (fst ra))
    (List.filter (fun ra => String.eqb (r_emoji (fst ra)) emoji)
       (get_message_reactions s message_id))).
Proof.
  intros Hu. unfold get_message_reactions.
  destruct (down s TReactions); [constructor |].
  rewrite users_of_get. now apply users_of_unique.
Qed.

Lemma reaction_count_distinct_users_witness :
  reactions_unique (reactions thumbs_store) /\
  List.NoDup (map (fun ra => r_user (fst ra))
    (List.filter (fun ra => String.eqb (r_emoji (fst ra)) "👍")
       (get_message_reactions thumbs_store "m1"))) /\
  map (fun ra => r_user (fst ra))
    (List.filter (fun ra => String.eqb (r_emoji (fst ra)) "👍")
       (get_message_reactions thumbs_store "m1")) = ["u1"; "u2"; "u3"].
Proof.
  assert (H : reactions_unique (reactions thumbs_store)).
  { apply nodup_reactions_unique. simpl. repeat constructor; simpl; intuition discriminate. }
  split; [exact H | split; [exact (reaction_count_distinct_users thumbs_store "m1" "👍" H) |]].
  vm_compute. reflexivity.
Defined.

(** X5: with the reactions table up, a click on a reaction button flips
    whether the user has reacted with that emoji, shows no error and
    leaves every other reaction's count unchanged. *)
Theorem reaction_click_toggles (s : store) (message_id user_id emoji : string) :
  down s TReactions = false ->
  let '(s', errs) := click_reaction_button s message_id user_id emoji in
  user_has_reacted (get_message_reactions s' message_id) user_id emoji =
    negb (user_has_reacted (get_message_reactions s message_id) user_id emoji) /\
  errs = [] /\
  (forall r, r <> mkReaction message_id user_id emoji ->
     count_reaction r (reactions s') = count_reaction r (reactions s)).
Proof.
  intros Hd. rewrite click_store by exact Hd.
  rewrite (reacted_get s) by exact Hd.
  destruct (existsb (same_reaction (mkReaction message_id user_id emoji)) (reactions s)) eqn:E;
    rewrite reacted_get by exact Hd; simpl.
  - split; [apply existsb_remove | split; [reflexivity |]].
    intros r Hr. rewrite count_reaction_remove.
    destruct (same_reaction r _) eqn:Er; [| reflexivity].
    apply same_reaction_eq in Er. contradiction.
  - split; [| split; [reflexivity |]].
    + rewrite existsb_app. simpl. now rewrite same_reaction_refl, orb_true_r.
    + intros r Hr. rewrite count_reaction_app, count_reaction_single.
      destruct (same_reaction r _) eqn:Er; [| lia].
      apply same_reaction_eq in Er. contradiction.
Qed.

Lemma reaction_click_toggles_witness :
  down reaction_store TReactions = false /\
  user_has_reacted (get_message_reactions (fst (click_reaction_button reaction_store "m1" "u1" "👍"))
                      "m1") "u1" "👍" = false.
Proof.
  assert (H : down reaction_store TReactions = false) by reflexivity.
  split; [exact H |].
  pose proof (reaction_click_toggles reaction_store "m1" "u1" "👍" H) as T.
  destruct (click_reaction_button reaction_store "m1" "u1" "👍") as [s' errs].
  destruct T as [T _]. simpl. rewrite T. reflexivity.
Defined.

(** X6: adding and removing a reaction keep the table free of duplicate
    (message, user, emoji) rows. *)
Theorem reactions_unique_preserved (s : store) (message_id user_id emoji : string) :
  reactions_unique (reactions s) ->
  reactions_unique (reactions (snd (fst (add_reaction s message_id user_id emoji)))) /\
  reactions_unique (reactions (snd (fst (remove_reaction s message_id user_id emoji)))).
Proof.
  intros Hu. unfold add_reaction, remove_reaction, insert_reaction.
  destruct (down s TReactions); simpl; [split; exact Hu |].
  split.
  - destruct (existsb (same_reaction (mkReaction message_id user_id emoji)) (reactions s)) eqn:E;
      simpl; [exact Hu |]. now apply unique_insert.
  - now apply unique_remove.
Qed.

Lemma reactions_unique_preserved_witness :
  reactions_unique (reactions reaction_store) /\
  reactions_unique (reactions (snd (fst (add_reaction reaction_store "m1" "u2" "👍")))).
Proof.
  assert (H : reactions_unique (reactions reaction_store)).
  { intros r. unfold count_reaction. simpl. destruct (same_reaction r _); simpl; lia. }
  split; [exact H | exact (proj1 (reactions_unique_preserved reaction_store "m1" "u2" "👍" H))].
Defined.

(** X7: adding a reaction the user has not made yet and then removing it
    gives back the reactions table as it was. *)
Theorem add_then_remove_reaction (s : store) (message_id user_id emoji : string) :
  down s TReactions = false ->
  existsb (same_reaction (mkReaction message_id user_id emoji)) (reactions s) = false ->
  fst (fst (add_reaction s message_id user_id emoji)) = Some (mkReaction message_id user_id emoji) /\
  reactions (snd (fst (remove_reaction (snd (fst (add_reaction s message_id user_id emoji)))
                         message_id user_id emoji))) = reactions s.
Proof.
  intros Hd Hn. unfold add_reaction, remove_reaction, insert_reaction.
  rewrite Hd, Hn. simpl. rewrite Hd. split; [reflexivity |].
  rewrite List.filter_app, filter_negb_none by exact Hn. simpl.
  rewrite same_reaction_refl. simpl. apply app_nil_r.
Qed.

Lemma add_then_remove_reaction_witness :
  down reaction_store TReactions = false /\
  existsb (same_reaction (mkReaction "m1" "u2" "👍")) (reactions reaction_store) = false /\
  reactions (snd (fst (remove_reaction (snd (fst (add_reaction reaction_store "m1" "u2" "👍")))
                         "m1" "u2" "👍"))) = reactions reaction_store.
Proof.
  assert (H1 : down reaction_store TReactions = false) by reflexivity.
  assert (H2 : existsb (same_reaction (mkReaction "m1" "u2" "👍")) (reactions reaction_store) = false)
    by reflexivity.
  split; [exact H1 | split; [exact H2 |]].
  exact (proj2 (add_then_remove_reaction reaction_store "m1" "u2" "👍" H1 H2)).
Defined.

(* ------------------------------------------------------------------ *)
(** ** Channel names *)

Lemma ascii_forall (P : ascii -> bool) :
  forallb P (map ascii_of_nat (seq 0 256)) = true -> forall c, P c = true.
Proof.
  intros H c. rewrite forallb_forall in H. rewrite <- (ascii_nat_embedding c).
  apply H. apply in_map. apply in_seq. pose proof (nat_ascii_bounded c). lia.
Qed.

Lemma clean_char_not_blank (c : ascii) : Ascii.eqb (clean_char c) " "%char = false.
Proof.
  pose proof (ascii_forall (fun c => negb (Ascii.eqb (clean_char c) " "%char))
                (eq_refl true) c) as H. cbv beta in H.
  now destruct (Ascii.eqb (clean_char c) " "%char).
Qed.

Lemma clean_char_lower (c : ascii) : lower_ascii (clean_char c) = clean_char c.
Proof.
  pose proof (ascii_forall (fun c => Ascii.eqb (lower_ascii (clean_char c)) (clean_char c))
                (eq_refl true) c) as H. cbv beta in H.
  now apply Ascii.eqb_eq in H.
Qed.

Lemma clean_char_idem (c : ascii) : clean_char (clean_char c) = clean_char c.
Proof.
  pose proof (ascii_forall (fun c => Ascii.eqb (clean_char (clean_char c)) (clean_char c))
                (eq_refl true) c) as H. cbv beta in H.
  now apply Ascii.eqb_eq in H.
Qed.

Lemma clean_char_space (c : ascii) : is_space (clean_char c) = true -> is_space c = true.
Proof.
  pose proof (ascii_forall (fun c => implb (is_space (clean_char c)) (is_space c))
                (eq_refl true) c) as H. cbv beta in H.
  destruct (is_space c), (is_space (clean_char c)); simpl in H; congruence.
Qed.

Lemma clean_list (s : string) :
  list_ascii_of_string (replace_space (lower s)) = map clean_char (list_ascii_of_string s).
Proof. induction s as [| c s IH]; simpl; [reflexivity | now rewrite IH]. Qed.

Lemma strip_list (s : string) :
  list_ascii_of_string (strip s) =
  rev (drop_spaces_rev (rev (drop_spaces (list_ascii_of_string s)))).
Proof. unfold strip. apply list_ascii_of_string_of_list_ascii. Qed.

Section DropWs.

Variable sp2 : ascii -> ascii -> bool.
Variable sp3 : ascii -> ascii -> ascii -> bool.

Lemma drop_ws_cons (a : ascii) (l1 : list ascii) :
  drop_ws sp2 sp3 (a :: l1) =
  if is_space a then drop_ws sp2 sp3 l1 else
  match l1 with
  | [] => a :: l1
  | b :: l2 =>
      if sp2 a b then drop_ws sp2 sp3 l2 else
      match l2 with
      | [] => a :: l1
      | c :: l3 => if sp3 a b c then drop_ws sp2 sp3 l3 else a :: l1
      end
  end.
Proof. reflexivity. Qed.

Lemma drop_ws_eq (l : list ascii) :
  drop_ws sp2 sp3 l =
  match ws_step sp2 sp3 l with Some r => drop_ws sp2 sp3 r | None => l end.
Proof.
  destruct l as [| a l1]; [reflexivity |]. rewrite drop_ws_cons. cbn [ws_step].
  destruct (is_space a); [reflexivity |].
  destruct l1 as [| b l2]; [reflexivity |]. destruct (sp2 a b); [reflexivity |].
  destruct l2 as [| c l3]; [reflexivity |]. destruct (sp3 a b c); reflexivity.
Qed.

Lemma ws_step_split (l r : list ascii) :
  ws_step sp2 sp3 l = Some r -> (length r < length l)%nat /\ exists p, l = app p r.
Proof.
  destruct l as [| a [| b [| c l]]]; simpl; [discriminate | | |];
    repeat match goal with |- context [if ?x then _ else _] => destruct x end;
    intros H; try discriminate; injection H as <-; simpl; (split; [lia |]).
  all: first [ now exists [a] | now exists [a; b] | now exists [a; b; c] ].
Qed.

Lemma ws_step_app (l p r : list ascii) :
  ws_step sp2 sp3 l = Some r -> ws_step sp2 sp3 (app l p) = Some (app r p).
Proof.
  destruct l as [| a [| b [| c l]]]; simpl; [discriminate | | |].
  - destruct (is_space a); [| discriminate]. intros H. injection H as <-. reflexivity.
  - destruct (is_space a); [intros H; injection H as <-; reflexivity |].
    destruct (sp2 a b); [| discriminate]. intros H. injection H as <-. reflexivity.
  - destruct (is_space a); [intros H; injection H as <-; reflexivity |].
    destruct (sp2 a b); [intros H; injection H as <-; reflexivity |].
    destruct (sp3 a b c); [| discriminate]. intros H. injection H as <-. reflexivity.
Qed.

Lemma drop_ws_none_suffix (l : list ascii) :
  ws_step sp2 sp3 (drop_ws sp2 sp3 l) = None /\ exists p, l = app p (drop_ws sp2 sp3 l).
Proof.
  remember (length l) as n eqn:Hn. revert l Hn.
  induction n as [n IH] using Wf_nat.lt_wf_ind. intros l Hn.
  rewrite drop_ws_eq. destruct (ws_step sp2 sp3 l) as [r |] eqn:E.
  - destruct (ws_step_split l r E) as [Hlt [p Hp]]. subst n.
    destruct (IH (length r) Hlt r eq_refl) as [H1 [q Hq]].
    split; [exact H1 |]. exists (app p q). rewrite Hp at 1. rewrite Hq at 1.
    apply app_assoc.
  - split; [exact E |]. now exists [].
Qed.

Lemma drop_ws_fix (l : list ascii) :
  ws_step sp2 sp3 l = None -> drop_ws sp2 sp3 l = l.
Proof. intros H. rewrite drop_ws_eq, H. reflexivity. Qed.

(** A byte map that creates no whitespace keeps a head free of it. *)
Lemma ws_step_map (f : ascii -> ascii) (l : list ascii) :
  (forall c, is_space (f c) = true -> is_space c = true) ->
  (forall a b, sp2 (f a) (f b) = true -> sp2 a b = true) ->
  (forall a b c, sp3 (f a) (f b) (f c) = true -> sp3 a b c = true) ->
  ws_step sp2 sp3 l = None -> ws_step sp2 sp3 (map f l) = None.
Proof.
  intros H1 H2 H3. destruct l as [| a [| b [| c l]]]; simpl; [reflexivity | | |].
  - destruct (is_space a) eqn:Ea; [discriminate |]. intros _.
    destruct (is_space (f a)) eqn:E; [apply H1 in E; congruence | reflexivity].
  - destruct (is_space a) eqn:Ea; [discriminate |].
    destruct (sp2 a b) eqn:Eb; [discriminate |]. intros _.
    destruct (is_space (f a)) eqn:E; [apply H1 in E; congruence |].
    destruct (sp2 (f a) (f b)) eqn:E'; [apply H2 in E'; congruence | reflexivity].
  - destruct (is_space a) eqn:Ea; [discriminate |].
    destruct (sp2 a b) eqn:Eb; [discriminate |].
    destruct (sp3 a b c) eqn:Ec; [discriminate |]. intros _.
    destruct (is_space (f a)) eqn:E; [apply H1 in E; congruence |].
    destruct (sp2 (f a) (f b)) eqn:E'; [apply H2 in E'; congruence |].
    destruct (sp3 (f a) (f b) (f c)) eqn:E''; [apply H3 in E''; congruence | reflexivity].
Qed.

End DropWs.

(** The two ends of a stripped text are free of whitespace. *)
Lemma strip_ends (l : list ascii) :
  ws_step is_space2 is_space3 (rev (drop_spaces_rev (rev (drop_spaces l)))) = None /\
  ws_step is_space2_rev is_space3_rev (rev (rev (drop_spaces_rev (rev (drop_spaces l))))) = None.
Proof.
  unfold drop_spaces_rev, drop_spaces.
  set (d := drop_ws is_space2 is_space3 l).
  destruct (drop_ws_none_suffix is_space2 is_space3 l) as [Hd _]. fold d in Hd.
  destruct (drop_ws_none_suffix is_space2_rev is_space3_rev (rev d)) as [Hr [p Hp]].
  split.
  - destruct (ws_step is_space2 is_space3 (rev (drop_ws is_space2_rev is_space3_rev (rev d))))
      as [r |] eqn:E; [| reflexivity].
    apply (ws_step_app _ _ _ (rev p)) in E.
    assert (Hdd : d = app (rev (drop_ws is_space2_rev is_space3_rev (rev d))) (rev p)).
    { rewrite <- rev_app_distr, <- Hp. symmetry. apply rev_involutive. }
    rewrite <- Hdd in E. congruence.
  - rewrite rev_involutive. exact Hr.
Qed.

Lemma strip_fix (l : list ascii) :
  ws_step is_space2 is_space3 l = None ->
  ws_step is_space2_rev is_space3_rev (rev l) = None ->
  rev (drop_spaces_rev (rev (drop_spaces l))) = l.
Proof.
  intros H1 H2. unfold drop_spaces, drop_spaces_rev.
  rewrite (drop_ws_fix _ _ l H1), (drop_ws_fix _ _ (rev l) H2). apply rev_involutive.
Qed.

Lemma is_space2_high (a b : ascii) :
  is_space2 a b = true -> (128 <= nat_of_ascii a /\ 128 <= nat_of_ascii b)%nat.
Proof.
  unfold is_space2. intros H.
  repeat match goal with
         | H : (_ && _)%bool = true |- _ => apply andb_true_iff in H as [? ?]
         | H : (_ || _)%bool = true |- _ => apply orb_true_iff in H as [? | ?]
         | H : Nat.eqb _ _ = true |- _ => apply Nat.eqb_eq in H
         end; lia.
Qed.

Lemma is_space3_high (a b c : ascii) :
  is_space3 a b c = true ->
  (128 <= nat_of_ascii a /\ 128 <= nat_of_ascii b /\ 128 <= nat_of_ascii c)%nat.
Proof.
  unfold is_space3. cbv zeta. intros H.
  repeat match goal with
         | H : (_ && _)%bool = true |- _ => apply andb_true_iff in H as [? ?]
         | H : (_ || _)%bool = true |- _ => apply orb_true_iff in H as [? | ?]
         | H : Nat.eqb _ _ = true |- _ => apply Nat.eqb_eq in H
         | H : Nat.leb _ _ = true |- _ => apply Nat.leb_le in H
         end; lia.
Qed.

Lemma clean_char_high (c : ascii) :
  (128 <= nat_of_ascii (clean_char c))%nat -> clean_char c = c.
Proof.
  pose proof (ascii_forall (fun c => implb (Nat.leb 128 (nat_of_ascii (clean_char c)))
                                           (Ascii.eqb (clean_char c) c))
                (eq_refl true) c) as H. cbv beta in H.
  intros Hc. apply Nat.leb_le in Hc. rewrite Hc in H. simpl in H.
  now apply Ascii.eqb_eq in H.
Qed.

Lemma clean_char_space2 (a b : ascii) :
  is_space2 (clean_char a) (clean_char b) = true -> is_space2 a b = true.
Proof.
  intros H. destruct (is_space2_high _ _ H) as [Ha Hb].
  now rewrite (clean_char_high a Ha), (clean_char_high b Hb) in H.
Qed.

Lemma clean_char_space3 (a b c : ascii) :
  is_space3 (clean_char a) (clean_char b) (clean_char c) = true -> is_space3 a b c = true.
Proof.
  intros H. destruct (is_space3_high _ _ _ H) as [Ha [Hb Hc]].
  now rewrite (clean_char_high a Ha), (clean_char_high b Hb), (clean_char_high c Hc) in H.
Qed.

Lemma clean_channel_name_list (name : string) :
  list_ascii_of_string (clean_channel_name name) =
  map clean_char (rev (drop_spaces_rev (rev (drop_spaces (list_ascii_of_string name))))).
Proof. unfold clean_channel_name. now rewrite clean_list, strip_list. Qed.

Lemma string_list_inj (a b : string) :
  list_ascii_of_string a = list_ascii_of_string b -> a = b.
Proof.
  intros H. rewrite <- (string_of_list_ascii_of_string a), <- (string_of_list_ascii_of_string b).
  now rewrite H.
Qed.

(* ------------------------------------------------------------------ *)
(** ** Membership and channel creation *)

Lemma same_member_eq (a b : string * string) : same_member a b = true -> a = b.
Proof.
  destruct a as [a1 a2], b as [b1 b2]. unfold same_member. simpl.
  intros H. apply andb_true_iff in H as [H1 H2]. apply String.eqb_eq in H1, H2. now subst.
Qed.

Lemma existsb_member (um : string * string) (l : list (string * string)) :
  existsb (same_member um) l = true <-> In um l.
Proof.
  rewrite existsb_exists. split.
  - intros [x [Hin Hx]]. apply same_member_eq in Hx. now subst.
  - intros Hin. exists um. split; [exact Hin | apply same_member_refl].
Qed.

(** [join_channel] with the members table up: the pair is stored once
    and no error is shown, whether or not it was there already. *)
Lemma join_channel_up (s : store) (user_id channel_id : string) :
  down s TMembers = false ->
  exists ok, join_channel s user_id channel_id =
    (ok, set_members s (if existsb (same_member (user_id, channel_id)) (members s)
                        then members s else app (members s) [(user_id, channel_id)]), []).
Proof.
  intros Hd. unfold join_channel, insert_member. rewrite Hd.
  destruct (existsb (same_member (user_id, channel_id)) (members s)) eqn:E.
  - exists false. rewrite dup_error_is_duplicate_key. destruct s; reflexivity.
  - exists true. reflexivity.
Qed.

Lemma join_channel_member (s : store) (user_id channel_id : string) :
  down s TMembers = false ->
  let '(_, s', errs) := join_channel s user_id channel_id in
  In (user_id, channel_id) (members s') /\ errs = [] /\
  (forall um, In um (members s') <-> In um (members s) \/ um = (user_id, channel_id)) /\
  channels s' = channels s /\ down s' = down s /\ messages s' = messages s /\
  profiles s' = profiles s /\ reactions s' = reactions s /\ next_id s' = next_id s.
Proof.
  intros Hd. destruct (join_channel_up s user_id channel_id Hd) as [ok E]. rewrite E.
  simpl. destruct (existsb (same_member (user_id, channel_id)) (members s)) eqn:Ex.
  - apply existsb_member in Ex. repeat split; try tauto.
    intros [H | H]; [exact H | now subst].
  - repeat split.
    + apply in_or_app. right. now left.
    + intros H. apply in_app_or in H as [H | [H | []]]; [now left | now right].
    + intros [H | H]; apply in_or_app; [now left | right; now left].
Qed.

Lemma get_user_channels_in (s : store) (user_id : string) (c : channel_row) :
  down s TChannels = false -> down s TMembers = false ->
  (In c (fst (get_user_channels s user_id)) <->
   In c (channels s) /\ In (user_id, ch_id c) (members s)).
Proof.
  intros H1 H2. unfold get_user_channels. rewrite H1, H2. simpl.
  rewrite List.filter_In, existsb_member. tauto.
Qed.

(** [create_channel] with both tables up: the channel is appended and
    its creator is a member. *)
Lemma create_channel_up (s : store) (user_id workspace_id name description : string) :
  down s TChannels = false -> down s TMembers = false ->
  channel_taken s workspace_id name = false ->
  let '(r, s', errs) := create_channel s user_id workspace_id name description in
  exists c, r = Some c /\ ch_workspace c = workspace_id /\ ch_name c = name /\
    channels s' = app (channels s) [c] /\ In (user_id, ch_id c) (members s') /\
    down s' = down s /\ errs = [] /\
    messages s' = messages s /\ reactions s' = reactions s /\ profiles s' = profiles s.
Proof.
  intros H1 H2 H3. unfold create_channel, insert_channel. rewrite H1, H3.
  set (c := mkChannel _ workspace_id name).
  set (s1 := mkStore _ _ _ _ _ _ _).
  assert (Hm : down s1 TMembers = false) by exact H2.
  pose proof (join_channel_member s1 user_id (ch_id c) Hm) as J.
  destruct (join_channel s1 user_id (ch_id c)) as [[ok s2] errs].
  destruct J as [Hin [He [_ [Hc [Hdn [Hmsg [Hp [Hr _]]]]]]]].
  exists c. rewrite Hc, Hdn, Hmsg, Hp, Hr. repeat split; assumption.
Qed.

(** X8: a cleaned channel name contains no blank and no upper-case
    letter. *)
Theorem clean_channel_name_chars (name : string) :
  Forall (fun c => c <> " "%char /\ lower_ascii c = c)
    (list_ascii_of_string (clean_channel_name name)).
Proof.
  rewrite clean_channel_name_list. apply List.Forall_forall.
  intros c Hin. apply in_map_iff in Hin as [x [<- _]]. split.
  - intros H. pose proof (clean_char_not_blank x) as Hb. rewrite H in Hb. discriminate.
  - apply clean_char_lower.
Qed.

(** X9: cleaning a channel name twice gives the same name as cleaning it
    once. *)
Theorem clean_channel_name_idem (name : string) :
  clean_channel_name (clean_channel_name name) = clean_channel_name name.
Proof.
  apply string_list_inj.
  rewrite (clean_channel_name_list (clean_channel_name name)), clean_channel_name_list.
  set (l := rev (drop_spaces_rev (rev (drop_spaces (list_ascii_of_string name))))).
  destruct (strip_ends (list_ascii_of_string name)) as [E1 E2]. fold l in E1, E2.
  rewrite (strip_fix (map clean_char l)), map_map.
  - apply map_ext. apply clean_char_idem.
  - apply ws_step_map; [exact clean_char_space | exact clean_char_space2 |
                        exact clean_char_space3 | exact E1].
  - rewrite <- map_rev. apply ws_step_map; [exact clean_char_space | | | exact E2].
    + intros a b. apply clean_char_space2.
    + intros a b c. apply clean_char_space3.
Qed.

(** X10: with the channels and members tables up and the name free in
    the workspace, [create_channel] appends one channel with the given
    workspace and name, shows no error, and the creator then finds the
    channel among their channels; a name already taken in the workspace
    is refused: nothing is stored and the duplicate-key error is shown. *)
Theorem create_channel_lists_creator (s : store) (user_id workspace_id name description : string) :
  down s TChannels = false -> down s TMembers = false ->
  (channel_taken s workspace_id name = false ->
   let '(r, s', errs) := create_channel s user_id workspace_id name description in
   exists c, r = Some c /\ ch_workspace c = workspace_id /\ ch_name c = name /\
     channels s' = app (channels s) [c] /\ In c (fst (get_user_channels s' user_id)) /\
     errs = []) /\
  (channel_taken s workspace_id name = true ->
   create_channel s user_id workspace_id name description =
   (None, s, ["Error creating channel: " ++ dup_error])).
Proof.
  intros H1 H2. split.
  - intros H3.
    pose proof (create_channel_up s user_id workspace_id name description H1 H2 H3) as C.
    destruct (create_channel s user_id workspace_id name description) as [[r s'] errs].
    destruct C as [c [Hr [Hw [Hn [Hc [Hm [Hd [He _]]]]]]]].
    exists c. repeat split; try assumption.
    apply get_user_channels_in; rewrite ?Hd; try assumption.
    split; [rewrite Hc; apply in_or_app; right; now left | exact Hm].
  - intros H3. unfold create_channel, insert_channel. rewrite H1, H3. reflexivity.
Qed.

Lemma create_channel_lists_creator_witness :
  down general_store TChannels = false /\ down general_store TMembers = false /\
  channel_taken general_store "1" "random" = false /\
  channel_taken general_store "1" "general" = true /\
  fst (get_user_channels (snd (fst (create_channel general_store "u1" "1" "random" ""))) "u1") =
  [mkChannel "ch-0" "1" "random"] /\
  create_channel general_store "u1" "1" "general" "" =
  (None, general_store, ["Error creating channel: " ++ dup_error]).
Proof.
  assert (H1 : down general_store TChannels = false) by reflexivity.
  assert (H2 : down general_store TMembers = false) by reflexivity.
  assert (H3 : channel_taken general_store "1" "random" = false) by reflexivity.
  assert (H4 : channel_taken general_store "1" "general" = true) by reflexivity.
  destruct (create_channel_lists_creator general_store "u1" "1" "random" "" H1 H2) as [C _].
  destruct (create_channel_lists_creator general_store "u1" "1" "general" "" H1 H2) as [_ D].
  split; [exact H1 | split; [exact H2 | split; [exact H3 | split; [exact H4 |]]]].
  split; [| exact (D H4)].
  specialize (C H3).
  destruct (create_channel general_store "u1" "1" "random" "") as [[r s'] errs] eqn:E.
  destruct C as [c [Hr [_ [_ [Hc [Hin _]]]]]].
  vm_compute in E. injection E as <- <- <-. reflexivity.
Defined.

(** X11: when the members table fails after a successful channel
    insert, [create_channel] still returns the new channel, which stays
    stored with no member, and shows only the join error. *)
Theorem create_channel_join_fails (s : store) (user_id workspace_id name description : string) :
  down s TChannels = false -> down s TMembers = true ->
  channel_taken s workspace_id name = false ->
  let '(r, s', errs) := create_channel s user_id workspace_id name description in
  exists c, r = Some c /\ channels s' = app (channels s) [c] /\ members s' = members s /\
    errs = ["Error joining channel: " ++ conn_error].
Proof.
  intros H1 H2 H3. unfold create_channel, insert_channel. rewrite H1, H3.
  unfold join_channel, insert_member. simpl. rewrite H2.
  eexists. repeat split; reflexivity.
Qed.

Lemma create_channel_join_fails_witness :
  down members_down_store TChannels = false /\ down members_down_store TMembers = true /\
  channel_taken members_down_store "1" "random" = false /\
  snd (create_channel members_down_store "u1" "1" "random" "") =
  ["Error joining channel: " ++ conn_error].
Proof.
  assert (H1 : down members_down_store TChannels = false) by reflexivity.
  assert (H2 : down members_down_store TMembers = true) by reflexivity.
  assert (H3 : channel_taken members_down_store "1" "random" = false) by reflexivity.
  split; [exact H1 | split; [exact H2 | split; [exact H3 |]]].
  pose proof (create_channel_join_fails members_down_store "u1" "1" "random" "" H1 H2 H3) as C.
  destruct (create_channel members_down_store "u1" "1" "random" "") as [[r s'] errs].
  destruct C as [c [_ [_ [_ He]]]]. exact He.
Defined.

(** X12: the Create Channel form rejects a name that is blank after
    [strip] (Python's whitespace, [\x1c]-[\x1f] and U+00A0 included)
    with "Please enter a channel name" and changes nothing.  Any other
    name of ASCII text (the model's [lower] covers ASCII letters only),
    with the tables up, creates in workspace 1 a channel under the
    cleaned, non-empty name, listed among the creator's channels, with
    no error, unless the cleaned name is taken in workspace 1: then
    nothing is created and the duplicate-key error is shown. *)
Theorem create_channel_form_spec (s : store) (user_id name desc : string) :
  down s TChannels = false -> down s TMembers = false ->
  let '(r, s', errs) := create_channel_form s user_id name desc in
  (strip name = "" -> r = None /\ s' = s /\ errs = ["Please enter a channel name"]) /\
  (strip name <> "" -> ascii_text name = true ->
   channel_taken s "1" (clean_channel_name name) = false ->
   exists c, r = Some c /\ ch_workspace c = "1" /\ ch_name c = clean_channel_name name /\
     clean_channel_name name <> "" /\ In c (fst (get_user_channels s' user_id)) /\ errs = []) /\
  (strip name <> "" -> ascii_text name = true ->
   channel_taken s "1" (clean_channel_name name) = true ->
   r = None /\ s' = s /\ errs = ["Error creating channel: " ++ dup_error]).
Proof.
  intros H1 H2. unfold create_channel_form.
  destruct (String.eqb (strip name) "") eqn:E.
  - apply String.eqb_eq in E. split; [intros _; auto |].
    split; intros H; contradiction.
  - apply String.eqb_neq in E.
    destruct (channel_taken s "1" (clean_channel_name name)) eqn:Et.
    + unfold create_channel at 1, insert_channel at 1. rewrite H1, Et. cbv beta iota.
      split; [intros H; contradiction |].
      split; [intros _ _ H; discriminate |]. intros _ _ _. auto.
    + pose proof (create_channel_up s user_id "1" (clean_channel_name name) desc H1 H2 Et) as C.
      destruct (create_channel s user_id "1" (clean_channel_name name) desc) as [[r s'] errs].
      split; [intros H; contradiction |].
      split; [| intros _ _ H; discriminate]. intros _ _ _.
      destruct C as [c [Hr [Hw [Hn [Hc [Hm [Hd [He _]]]]]]]].
      exists c. repeat split; try assumption.
      * intros Hnil. apply E. apply string_list_inj.
        apply (f_equal list_ascii_of_string) in Hnil.
        rewrite clean_channel_name_list in Hnil. rewrite strip_list.
        apply map_eq_nil in Hnil. rewrite Hnil. reflexivity.
      * apply get_user_channels_in; rewrite ?Hd; try assumption.
        split; [rewrite Hc; apply in_or_app; right; now left | exact Hm].
Qed.

Lemma create_channel_form_spec_witness :
  down general_store TChannels = false /\ down general_store TMembers = false /\
  strip odd_blank = "" /\
  create_channel_form general_store "u1" odd_blank "" =
  (None, general_store, ["Please enter a channel name"]) /\
  strip " My Team " <> "" /\ ascii_text " My Team " = true /\
  channel_taken general_store "1" (clean_channel_name " My Team ") = false /\
  clean_channel_name " My Team " = "my-team" /\
  strip " General" <> "" /\ ascii_text " General" = true /\
  channel_taken general_store "1" (clean_channel_name " General") = true.
Proof.
  assert (H1 : down general_store TChannels = false) by reflexivity.
  assert (H2 : down general_store TMembers = false) by reflexivity.
  assert (H3 : strip odd_blank = "") by (vm_compute; reflexivity).
  assert (H4 : strip " My Team " <> "") by (vm_compute; discriminate).
  assert (H5 : ascii_text " My Team " = true) by reflexivity.
  assert (H6 : channel_taken general_store "1" (clean_channel_name " My Team ") = false)
    by (vm_compute; reflexivity).
  assert (H7 : strip " General" <> "") by (vm_compute; discriminate).
  assert (H8 : ascii_text " General" = true) by reflexivity.
  assert (H9 : channel_taken general_store "1" (clean_channel_name " General") = true)
    by (vm_compute; reflexivity).
  pose proof (create_channel_form_spec general_store "u1" odd_blank "" H1 H2) as B.
  pose proof (create_channel_form_spec general_store "u1" " My Team " "" H1 H2) as C.
  destruct (create_channel_form general_store "u1" odd_blank "") as [[r0 s0] e0].
  destruct (proj1 B H3) as [-> [-> ->]].
  split; [exact H1 | split; [exact H2 | split; [exact H3 | split; [reflexivity |]]]].
  split; [exact H4 | split; [exact H5 | split; [exact H6 | split]]];
    [| split; [exact H7 | split; [exact H8 | exact H9]]].
  destruct (create_channel_form general_store "u1" " My Team " "") as [[r s'] errs] eqn:E.
  destruct (proj1 (proj2 C) H4 H5 H6) as [c [Hr [_ [Hn _]]]].
  vm_compute in E. injection E as <- _ _. injection Hr as <-. rewrite <- Hn. reflexivity.
Defined.

(* ------------------------------------------------------------------ *)
(** ** Default workspace and channel *)

Lemma ensure_existing (s : store) (w : ws_table) (user_id wid nm : string)
  (rest : list (string * string)) (c : channel_row) (cs : list channel_row) :
  ws_down w = false -> down s TChannels = false ->
  List.filter (fun x => String.eqb (snd x) "Default Workspace") (workspaces w) = (wid, nm) :: rest ->
  List.filter (fun c => (String.eqb (ch_name c) "general" && String.eqb (ch_workspace c) wid)%bool)
    (channels s) = c :: cs ->
  ensure_default_workspace_and_channel s w user_id =
  (let '(_, s2, errs) := join_channel s user_id (ch_id c) in (s2, w, errs)).
Proof.
  intros Hw Hc Hf Hg. unfold ensure_default_workspace_and_channel.
  rewrite Hw, Hf. cbv beta iota zeta. rewrite Hc, Hg. reflexivity.
Qed.

Lemma ensure_shape (s : store) (w : ws_table) (user_id : string) :
  ws_down w = false -> down s TChannels = false ->
  exists wid w1 c s1,
    (exists rest, List.filter (fun x => String.eqb (snd x) "Default Workspace") (workspaces w1) =
                  (wid, "Default Workspace") :: rest) /\
    (exists cs, List.filter (fun c => (String.eqb (ch_name c) "general" &&
                                       String.eqb (ch_workspace c) wid)%bool) (channels s1) =
                c :: cs) /\
    ws_down w1 = false /\
    members s1 = members s /\ down s1 = down s /\
    ensure_default_workspace_and_channel s w user_id =
    (let '(_, s2, errs) := join_channel s1 user_id (ch_id c) in (s2, w1, errs)).
Proof.
  intros Hw Hc. unfold ensure_default_workspace_and_channel. rewrite Hw.
  assert (Hnew : forall wid, List.filter (fun c => (String.eqb (ch_name c) "general" &&
                                     String.eqb (ch_workspace c) wid)%bool) (channels s) = [] ->
            List.filter (fun c => (String.eqb (ch_name c) "general" &&
                                   String.eqb (ch_workspace c) wid)%bool)
              (app (channels s) [mkChannel ("ch-" ++ str_of_Z (Z.of_N (next_id s))) wid "general"])
            = [mkChannel ("ch-" ++ str_of_Z (Z.of_N (next_id s))) wid "general"]).
  { intros wid Eg. rewrite List.filter_app, Eg. simpl. now rewrite !string_eqb_refl. }
  destruct (List.filter (fun x => String.eqb (snd x) "Default Workspace") (workspaces w))
    as [| [wid nm] rest] eqn:Ef.
  - set (wid := "ws-" ++ str_of_Z (Z.of_N (ws_next w))).
    set (w1 := mkWs (app (workspaces w) [(wid, "Default Workspace")]) (N.succ (ws_next w)) false).
    assert (Hf1 : List.filter (fun x => String.eqb (snd x) "Default Workspace") (workspaces w1) =
                  [(wid, "Default Workspace")]).
    { simpl. rewrite List.filter_app, Ef. reflexivity. }
    cbv beta iota zeta. rewrite Hc.
    destruct (List.filter (fun c => (String.eqb (ch_name c) "general" &&
                                     String.eqb (ch_workspace c) wid)%bool) (channels s))
      as [| c cs] eqn:Eg.
    + unfold insert_channel, channel_taken. rewrite Hc, (filter_nil_existsb _ _ Eg).
      exists wid, w1, (mkChannel ("ch-" ++ str_of_Z (Z.of_N (next_id s))) wid "general"),
        (mkStore (messages s) (profiles s) (reactions s) (members s)
           (app (channels s) [mkChannel ("ch-" ++ str_of_Z (Z.of_N (next_id s))) wid "general"])
           (N.succ (next_id s)) (down s)).
      split; [exists []; exact Hf1 |]. split; [exists []; exact (Hnew wid Eg) |].
      repeat split.
    + exists wid, w1, c, s.
      split; [exists []; exact Hf1 |]. split; [exists cs; exact Eg |].
      repeat split.
  - assert (Hnm : nm = "Default Workspace").
    { assert (H : In (wid, nm) (List.filter (fun x => String.eqb (snd x) "Default Workspace")
                                  (workspaces w))) by (rewrite Ef; now left).
      apply List.filter_In in H as [_ H]. now apply String.eqb_eq in H. }
    subst nm. cbv beta iota zeta. rewrite Hc.
    destruct (List.filter (fun c => (String.eqb (ch_name c) "general" &&
                                     String.eqb (ch_workspace c) wid)%bool) (channels s))
      as [| c cs] eqn:Eg.
    + unfold insert_channel, channel_taken. rewrite Hc, (filter_nil_existsb _ _ Eg).
      exists wid, w, (mkChannel ("ch-" ++ str_of_Z (Z.of_N (next_id s))) wid "general"),
        (mkStore (messages s) (profiles s) (reactions s) (members s)
           (app (channels s) [mkChannel ("ch-" ++ str_of_Z (Z.of_N (next_id s))) wid "general"])
           (N.succ (next_id s)) (down s)).
      split; [exists rest; exact Ef |]. split; [exists []; exact (Hnew wid Eg) |].
      repeat split. exact Hw.
    + exists wid, w, c, s.
      split; [exists rest; exact Ef |]. split; [exists cs; exact Eg |].
      repeat split. exact Hw.
Qed.

Lemma before_at_spec (e : string) :
  exists rest, e = before_at e ++ rest /\ (rest = "" \/ exists r', rest = String "@" r') /\
  Forall (fun c => c <> "@"%char) (list_ascii_of_string (before_at e)).
Proof.
  induction e as [| c e IH]; simpl.
  - exists "". repeat split; auto.
  - destruct (Ascii.eqb c "@"%char) eqn:E.
    + apply Ascii.eqb_eq in E. subst c. exists (String "@" e). simpl.
      repeat split; [right; now exists e | constructor].
    + destruct IH as [rest [Hr [Hat Hno]]]. exists rest. simpl.
      split; [rewrite Hr at 1; reflexivity |]. split; [exact Hat |].
      constructor; [| exact Hno]. intros H. subst c. discriminate.
Qed.

Lemma upsert_profile_up (s : store) (p : profile_row) :
  down s TProfiles = false ->
  exists s1, upsert_profile s p = Ok s1 /\ down s1 = down s /\
    List.filter (fun q => String.eqb (up_id q) (up_id p)) (profiles s1) <> [] /\
    (forall q, In q (List.filter (fun q => String.eqb (up_id q) (up_id p)) (profiles s1)) -> q = p) /\
    (forall x, x <> up_id p ->
       List.filter (fun q => String.eqb (up_id q) x) (profiles s1) =
       List.filter (fun q => String.eqb (up_id q) x) (profiles s)) /\
    map up_id (profiles s1) =
      (if existsb (fun q => String.eqb (up_id q) (up_id p)) (profiles s)
       then map up_id (profiles s) else app (map up_id (profiles s)) [up_id p]).
Proof.
  intros Hd. unfold upsert_profile. rewrite Hd.
  eexists. split; [reflexivity |]. simpl. split; [reflexivity |].
  destruct (existsb (fun q => String.eqb (up_id q) (up_id p)) (profiles s)) eqn:E.
  - repeat split.
    + apply existsb_exists in E as [q [Hq Hid]].
      intros Hnil. assert (Hin : In p (List.filter (fun q => String.eqb (up_id q) (up_id p))
          (map (fun q => if String.eqb (up_id q) (up_id p) then p else q) (profiles s)))).
      { apply List.filter_In. split; [| apply string_eqb_refl].
        apply in_map_iff. exists q. now rewrite Hid. }
      rewrite Hnil in Hin. exact Hin.
    + intros q Hq. apply List.filter_In in Hq as [Hq Hid].
      apply in_map_iff in Hq as [q0 [Hq0 _]].
      destruct (String.eqb (up_id q0) (up_id p)) eqn:E0; [exact (eq_sym Hq0) |].
      subst q0. rewrite Hid in E0. discriminate.
    + intros x Hx. clear E. induction (profiles s) as [| q ps IH]; simpl; [reflexivity |].
      destruct (String.eqb (up_id q) (up_id p)) eqn:Eq; simpl.
      * apply String.eqb_eq in Eq. rewrite Eq.
        destruct (String.eqb (up_id p) x) eqn:Ex; [apply String.eqb_eq in Ex; congruence |].
        exact IH.
      * destruct (String.eqb (up_id q) x); [f_equal |]; exact IH.
    + rewrite map_map. apply map_ext. intros q.
      destruct (String.eqb (up_id q) (up_id p)) eqn:Eq; [| reflexivity].
      apply String.eqb_eq in Eq. now rewrite Eq.
  - repeat split.
    + rewrite List.filter_app, filter_none by exact E. simpl. rewrite string_eqb_refl.
      discriminate.
    + rewrite List.filter_app, filter_none by exact E. simpl. rewrite string_eqb_refl.
      intros q [Hq | []]. now subst.
    + intros x Hx. rewrite List.filter_app. simpl.
      destruct (String.eqb (up_id p) x) eqn:Ex; [apply String.eqb_eq in Ex; congruence |].
      apply app_nil_r.
    + now rewrite map_app.
Qed.

Lemma nodup_snoc {A : Type} (l : list A) (x : A) :
  List.NoDup l -> ~ In x l -> List.NoDup (app l [x]).
Proof.
  induction l as [| a l IH]; simpl; intros Hnd Hx.
  - constructor; [intros [] | constructor].
  - inversion Hnd as [| ? ? Ha Hnd']; subst. constructor.
    + intros H. apply in_app_or in H as [H | [H | []]]; [contradiction |].
      subst. apply Hx. now left.
    + apply IH; [exact Hnd' | intros H; apply Hx; now right].
Qed.

(** X13: with the workspaces, channels and members tables up,
    [ensure_default_workspace_and_channel] leaves the user a member of a
    channel "general" of a workspace "Default Workspace", and shows no
    error. *)
Theorem ensure_default_membership (s : store) (w : ws_table) (user_id : string) :
  ws_down w = false -> down s TChannels = false -> down s TMembers = false ->
  let '(s', w', errs) := ensure_default_workspace_and_channel s w user_id in
  exists wid c, In (wid, "Default Workspace") (workspaces w') /\ In c (channels s') /\
    ch_name c = "general" /\ ch_workspace c = wid /\ In (user_id, ch_id c) (members s') /\
    errs = [].
Proof.
  intros Hw Hc Hm.
  destruct (ensure_shape s w user_id Hw Hc)
    as [wid [w1 [c [s1 [[rest Hf] [[cs Hg] [_ [_ [Hd He]]]]]]]]].
  rewrite He.
  assert (Hm1 : down s1 TMembers = false) by now rewrite Hd.
  pose proof (join_channel_member s1 user_id (ch_id c) Hm1) as J.
  destruct (join_channel s1 user_id (ch_id c)) as [[ok s2] errs].
  destruct J as [Hin [Herr [_ [Hch _]]]].
  assert (Hw1 : In (wid, "Default Workspace")
                  (List.filter (fun x => String.eqb (snd x) "Default Workspace") (workspaces w1)))
    by (rewrite Hf; now left).
  assert (Hc1 : In c (List.filter (fun c => (String.eqb (ch_name c) "general" &&
                                             String.eqb (ch_workspace c) wid)%bool) (channels s1)))
    by (rewrite Hg; now left).
  apply List.filter_In in Hw1 as [Hw1 _]. apply List.filter_In in Hc1 as [Hc1 Hp].
  apply andb_true_iff in Hp as [Hn Hwid]. apply String.eqb_eq in Hn, Hwid.
  exists wid, c. rewrite Hch. repeat split; assumption.
Qed.

Lemma ensure_default_membership_witness :
  ws_down empty_ws = false /\ down empty_store TChannels = false /\
  down empty_store TMembers = false /\
  snd (ensure_default_workspace_and_channel empty_store empty_ws "u1") = [].
Proof.
  assert (H1 : ws_down empty_ws = false) by reflexivity.
  assert (H2 : down empty_store TChannels = false) by reflexivity.
  assert (H3 : down empty_store TMembers = false) by reflexivity.
  split; [exact H1 | split; [exact H2 | split; [exact H3 |]]].
  pose proof (ensure_default_membership empty_store empty_ws "u1" H1 H2 H3) as C.
  destruct (ensure_default_workspace_and_channel empty_store empty_ws "u1") as [[s' w'] errs].
  destruct C as [wid [c [_ [_ [_ [_ [_ He]]]]]]]. exact He.
Defined.

(** X14: once [ensure_default_workspace_and_channel] has run with the
    workspaces and channels tables up, a later run, for any user, creates
    no further workspace and no further channel. *)
Theorem ensure_default_idempotent (s : store) (w : ws_table) (user_id other_id : string) :
  ws_down w = false -> down s TChannels = false ->
  let '(s1, w1, _) := ensure_default_workspace_and_channel s w user_id in
  let '(s2, w2, _) := ensure_default_workspace_and_channel s1 w1 other_id in
  workspaces w2 = workspaces w1 /\ channels s2 = channels s1.
Proof.
  intros Hw Hc.
  destruct (ensure_shape s w user_id Hw Hc)
    as [wid [w1 [c [s1 [[rest Hf] [[cs Hg] [Hw1 [_ [Hd He]]]]]]]]].
  rewrite He.
  pose proof (join_channel_frame s1 user_id (ch_id c)) as J.
  destruct (join_channel s1 user_id (ch_id c)) as [[ok s2] errs].
  destruct J as [Hch [Hd2 _]].
  assert (Hc2 : down s2 TChannels = false) by now rewrite Hd2, Hd.
  assert (Hg2 : List.filter (fun c => (String.eqb (ch_name c) "general" &&
                                       String.eqb (ch_workspace c) wid)%bool) (channels s2) =
                c :: cs) by now rewrite Hch.
  rewrite (ensure_existing s2 w1 other_id wid "Default Workspace" rest c cs Hw1 Hc2 Hf Hg2).
  pose proof (join_channel_frame s2 other_id (ch_id c)) as J2.
  destruct (join_channel s2 other_id (ch_id c)) as [[ok2 s3] errs2].
  destruct J2 as [Hch3 _]. split; [reflexivity | exact Hch3].
Qed.

Lemma ensure_default_idempotent_witness :
  ws_down empty_ws = false /\ down empty_store TChannels = false /\
  (let '(s1, w1, _) := ensure_default_workspace_and_channel empty_store empty_ws "u1" in
   let '(s2, w2, _) := ensure_default_workspace_and_channel s1 w1 "u2" in
   workspaces w2 = workspaces w1 /\ channels s2 = channels s1).
Proof.
  assert (H1 : ws_down empty_ws = false) by reflexivity.
  assert (H2 : down empty_store TChannels = false) by reflexivity.
  split; [exact H1 | split; [exact H2 |]].
  exact (ensure_default_idempotent empty_store empty_ws "u1" "u2" H1 H2).
Defined.

(** X15: [ensure_default_workspace_and_channel] never changes messages,
    profiles or reactions, and the only error it can show is one
    "Error joining channel" message: its own failures are silent. *)
Theorem ensure_default_silent (s : store) (w : ws_table) (user_id : string) :
  let '(s', w', errs) := ensure_default_workspace_and_channel s w user_id in
  messages s' = messages s /\ profiles s' = profiles s /\ reactions s' = reactions s /\
  (errs = [] \/ exists e, errs = ["Error joining channel: " ++ e]).
Proof.
  pose proof (ensure_frame s w user_id) as F.
  destruct (ensure_default_workspace_and_channel s w user_id) as [[s' w'] errs].
  destruct F as [Hm [Hp [Hr [_ He]]]]. auto.
Qed.

(** X16: when the profiles table is up, signing in returns the upserted
    row; afterwards the user's profile lookup finds exactly that row and
    every other user's lookup is unchanged. *)
Theorem user_profile_upserted (s : store) (w : ws_table) (u : auth_user) :
  down s TProfiles = false ->
  let '(r, s', w', errs) := create_or_update_user_profile s w u in
  r = Some (profile_of_user u) /\
  resolve s' (au_id u) = Found (profile_of_user u) /\
  (forall x, x <> au_id u -> resolve s' x = resolve s x).
Proof.
  intros Hd. unfold create_or_update_user_profile.
  destruct (upsert_profile_up s (profile_of_user u) Hd)
    as [s1 [Hup [Hd1 [Hne [Hall [Hoth _]]]]]].
  rewrite Hup.
  pose proof (ensure_frame s1 w (au_id u)) as F.
  destruct (ensure_default_workspace_and_channel s1 w (au_id u)) as [[s2 w2] errs].
  destruct F as [_ [Hp [_ [Hd2 _]]]].
  split; [reflexivity | split].
  - unfold resolve, q_profile. rewrite Hd2, Hd1, Hd, Hp.
    change (au_id u) with (up_id (profile_of_user u)).
    destruct (List.filter (fun q => String.eqb (up_id q) (up_id (profile_of_user u))) (profiles s1))
      as [| q qs] eqn:E; [contradiction |].
    rewrite (Hall q) by (now left). reflexivity.
  - intros x Hx. unfold resolve, q_profile. rewrite Hd2, Hd1, Hd, Hp.
    now rewrite Hoth.
Qed.

Lemma user_profile_upserted_witness :
  down empty_store TProfiles = false /\
  fst (fst (fst (create_or_update_user_profile empty_store empty_ws sample_user))) =
  Some (profile_of_user sample_user).
Proof.
  assert (H : down empty_store TProfiles = false) by reflexivity.
  split; [exact H |].
  pose proof (user_profile_upserted empty_store empty_ws sample_user H) as C.
  destruct (create_or_update_user_profile empty_store empty_ws sample_user) as [[[r s'] w'] errs].
  destruct C as [Hr _]. exact Hr.
Defined.

(** X17: for a non-empty email the username is the part of the email
    before its first "@" (the whole email if it has none), so it never
    contains "@". *)
Theorem username_from_email (u : auth_user) :
  au_email u <> "" ->
  exists rest, au_email u = up_username (profile_of_user u) ++ rest /\
    (rest = "" \/ exists r', rest = String "@" r') /\
    Forall (fun c => c <> "@"%char) (list_ascii_of_string (up_username (profile_of_user u))).
Proof.
  intros He. unfold profile_of_user. simpl.
  destruct (String.eqb (au_email u) "") eqn:E; [apply String.eqb_eq in E; contradiction |].
  apply before_at_spec.
Qed.

Lemma username_from_email_witness :
  au_email sample_user <> "" /\ up_username (profile_of_user sample_user) = "jane.doe".
Proof.
  assert (H : au_email sample_user <> "") by discriminate.
  split; [exact H |].
  destruct (username_from_email sample_user H) as [rest _].
  reflexivity.
Defined.

(** X18: signing in keeps at most one profile row per user id. *)
Theorem user_profile_ids_unique (s : store) (w : ws_table) (u : auth_user) :
  List.NoDup (map up_id (profiles s)) ->
  List.NoDup (map up_id (profiles (snd (fst (fst (create_or_update_user_profile s w u)))))).
Proof.
  intros Hnd. unfold create_or_update_user_profile.
  destruct (down s TProfiles) eqn:Hd.
  - unfold upsert_profile. rewrite Hd. exact Hnd.
  - destruct (upsert_profile_up s (profile_of_user u) Hd)
      as [s1 [Hup [_ [_ [_ [_ Hids]]]]]].
    rewrite Hup.
    pose proof (ensure_frame s1 w (au_id u)) as F.
    destruct (ensure_default_workspace_and_channel s1 w (au_id u)) as [[s2 w2] errs].
    destruct F as [_ [Hp _]]. simpl. rewrite Hp, Hids.
    destruct (existsb (fun q => String.eqb (up_id q) (up_id (profile_of_user u))) (profiles s))
      eqn:E; [exact Hnd |].
    apply nodup_snoc; [exact Hnd |]. intros Hin.
    apply in_map_iff in Hin as [q [Hq Hin]].
    assert (Hx : existsb (fun q => String.eqb (up_id q) (up_id (profile_of_user u))) (profiles s)
                 = true) by (apply existsb_exists; exists q; now rewrite Hq, string_eqb_refl).
    congruence.
Qed.

Lemma user_profile_ids_unique_witness :
  List.NoDup (map up_id (profiles returning_store)) /\
  List.NoDup (map up_id (profiles (snd (fst (fst
    (create_or_update_user_profile returning_store empty_ws sample_user)))))) /\
  profiles (snd (fst (fst (create_or_update_user_profile returning_store empty_ws sample_user)))) =
  [profile_of_user sample_user; mkProfile "u2" "bob" "Bob" "" "online"].
Proof.
  assert (H : List.NoDup (map up_id (profiles returning_store))).
  { simpl. repeat constructor; simpl; intuition discriminate. }
  split; [exact H | split; [exact (user_profile_ids_unique returning_store empty_ws sample_user H) |]].
  vm_compute. reflexivity.
Defined.

(* ------------------------------------------------------------------ *)
(** ** Users, message targets, conversations *)

(** X19: with the profiles table up and a non-empty id to exclude, the
    user list never contains the excluded id and contains every other
    stored profile, with no error. *)
Theorem get_all_users_excludes (s : store) (x : string) :
  down s TProfiles = false -> x <> "" ->
  (forall p, In p (fst (get_all_users s (Some x))) -> up_id p <> x) /\
  (forall p, In p (profiles s) -> up_id p <> x -> In p (fst (get_all_users s (Some x)))) /\
  snd (get_all_users s (Some x)) = [].
Proof.
  intros Hd Hx. unfold get_all_users, truthy. rewrite Hd.
  destruct (String.eqb x "") eqn:E; [apply String.eqb_eq in E; contradiction |].
  cbn [fst snd]. split; [| split; [| reflexivity]].
  - intros p Hin Hp. apply in_app_or in Hin as [Hin | Hin];
      apply List.filter_In in Hin as [_ Hk]; cbv beta iota in Hk;
      rewrite Hp, string_eqb_refl in Hk; discriminate.
  - intros p Hin Hp. apply in_or_app. left. apply List.filter_In. split; [exact Hin |].
    apply String.eqb_neq in Hp. cbv beta iota. now rewrite Hp.
Qed.

Lemma get_all_users_excludes_witness :
  down empty_store TProfiles = false /\ alex_id <> "" /\
  (forall p, In p (fst (get_all_users empty_store (Some alex_id))) -> up_id p <> alex_id).
Proof.
  assert (H1 : down empty_store TProfiles = false) by reflexivity.
  assert (H2 : alex_id <> "") by discriminate.
  split; [exact H1 | split; [exact H2 |]].
  exact (proj1 (get_all_users_excludes empty_store alex_id H1 H2)).
Defined.

Lemma send_message_targets (s : store) (user_id channel_id content : string) (now : Z) :
  Forall (fun m => one_target m = true) (messages s) ->
  Forall (fun m => one_target m = true)
    (messages (snd (fst (send_message s user_id channel_id content now)))).
Proof.
  intros H. unfold send_message, insert_message.
  destruct (down s TMessages); simpl; [exact H |].
  apply List.Forall_app. split; [exact H | constructor; [reflexivity | constructor]].
Qed.

Lemma send_direct_message_targets (s : store) (user_id recipient_id content : string) (now : Z) :
  Forall (fun m => one_target m = true) (messages s) ->
  Forall (fun m => one_target m = true)
    (messages (snd (fst (send_direct_message s user_id recipient_id content now)))).
Proof.
  intros H. unfold send_direct_message, insert_message.
  destruct (is_demo recipient_id); [exact H |].
  destruct (down s TMessages); simpl; [exact H |].
  apply List.Forall_app. split; [exact H | constructor; [reflexivity | constructor]].
Qed.

(** The store left by one run of the script: unchanged, or the store
    after one [send_message] or one [send_direct_message]. *)
Lemma main_run_store (s : store) (sess : session) (user_id : string) (now : Z)
  (send_pressed : bool) (message_input : string) :
  c_store (main_run s sess user_id now send_pressed message_input) = s \/
  (exists ch, c_store (main_run s sess user_id now send_pressed message_input) =
              snd (fst (send_message s user_id ch message_input now))) \/
  (exists d, c_store (main_run s sess user_id now send_pressed message_input) =
             snd (fst (send_direct_message s user_id d message_input now))).
Proof.
  unfold main_run.
  destruct (Z.ltb refresh_interval (now - last_refresh sess)); [now left |].
  destruct (view_mode sess), (current_channel sess) as [ch |], (current_dm_user sess) as [d |];
    cbv beta iota zeta;
    try destruct (get_channel_messages s ch 50) as [l e];
    try destruct (get_direct_messages s (demo_messages sess) user_id d 50) as [[l2 demo'] e2];
    destruct (send_guard send_pressed message_input); try (now left);
    first
      [ right; left; exists ch;
        destruct (send_message s user_id ch message_input now) as [[[m |] s'] e']; reflexivity
      | right; right; exists d;
        destruct (send_direct_message s user_id d message_input now) as [[[m |] s'] e'];
        reflexivity ].
Qed.

(** X20: every stored message has exactly one of a channel and a
    recipient, and a run of the script (with or without a send) keeps it
    so. *)
Theorem main_run_keeps_targets (s : store) (sess : session) (user_id : string) (now : Z)
  (send_pressed : bool) (message_input : string) :
  Forall (fun m => one_target m = true) (messages s) ->
  Forall (fun m => one_target m = true)
    (messages (c_store (main_run s sess user_id now send_pressed message_input))).
Proof.
  intros H.
  destruct (main_run_store s sess user_id now send_pressed message_input)
    as [E | [[ch E] | [d E]]]; rewrite E.
  - exact H.
  - now apply send_message_targets.
  - now apply send_direct_message_targets.
Qed.

Lemma main_run_keeps_targets_witness :
  Forall (fun m => one_target m = true) (messages empty_store) /\
  Forall (fun m => one_target m = true)
    (messages (c_store (main_run empty_store (channel_session 0) "u1" 1 true "hi"))).
Proof.
  assert (H : Forall (fun m => one_target m = true) (messages empty_store)) by constructor.
  split; [exact H |].
  exact (main_run_keeps_targets empty_store (channel_session 0) "u1" 1 true "hi" H).
Defined.

(** X21: between two non-demo users, the direct-message read gives the
    same rows, with the same errors, whichever of the two reads it. *)
Theorem dm_read_symmetric (s : store) (demo : gmap string (list message))
  (a b : string) (lim : nat) :
  is_demo a = false -> is_demo b = false ->
  fst (fst (get_direct_messages s demo a b lim)) = fst (fst (get_direct_messages s demo b a lim)) /\
  snd (get_direct_messages s demo a b lim) = snd (get_direct_messages s demo b a lim).
Proof.
  intros Ha Hb. unfold get_direct_messages, q_direct_messages. rewrite Ha, Hb.
  destruct (down s TMessages); [split; reflexivity |].
  rewrite (List.filter_ext (is_dm_between a b) (is_dm_between b a)); [split; reflexivity |].
  intros m. unfold is_dm_between. f_equal. apply orb_comm.
Qed.

Lemma dm_read_symmetric_witness :
  is_demo "u1" = false /\ is_demo "u2" = false /\
  fst (fst (get_direct_messages dm_store ∅ "u1" "u2" 50)) =
  fst (fst (get_direct_messages dm_store ∅ "u2" "u1" 50)) /\
  map (fun p => msg_id (fst p)) (fst (fst (get_direct_messages dm_store ∅ "u1" "u2" 50))) =
  ["msg-0"; "msg-1"; "msg-3"].
Proof.
  assert (H1 : is_demo "u1" = false) by reflexivity.
  assert (H2 : is_demo "u2" = false) by reflexivity.
  split; [exact H1 | split; [exact H2 | split]].
  - exact (proj1 (dm_read_symmetric dm_store ∅ "u1" "u2" 50 H1 H2)).
  - vm_compute. reflexivity.
Defined.

(** X22: when a run sends a message to a demo contact, the run reruns,
    and the next read of that conversation shows the rows of this run
    followed by the sent message, authored by "You", whatever the limit. *)
Theorem demo_send_then_read (s : store) (sess : session) (user_id d : string) (now : Z)
  (message_input : string) (lim : nat) :
  view_mode sess = ViewDm -> current_dm_user sess = Some d -> is_demo d = true ->
  now - last_refresh sess <= refresh_interval -> send_guard true message_input = true ->
  exists rows,
    c_read (main_run s sess user_id now true message_input) = Some rows /\
    c_rerun (main_run s sess user_id now true message_input) = true /\
    fst (fst (get_direct_messages (c_store (main_run s sess user_id now true message_input))
                (demo_messages (c_session (main_run s sess user_id now true message_input)))
                user_id d lim)) =
    app rows [(demo_sent user_id d message_input now, Named "You" "you")].
Proof.
  intros Hv Hu Hd Ht Hg.
  assert (Hlt : Z.ltb refresh_interval (now - last_refresh sess) = false)
    by (apply Z.ltb_ge; lia).
  unfold main_run. rewrite Hlt, Hv, Hu, Hg.
  destruct (current_channel sess); cbv beta iota zeta;
  unfold get_direct_messages, send_direct_message; rewrite Hd; cbv beta iota zeta;
  set (key := demo_key user_id d);
  set (m := demo_sent user_id d message_input now);
  set (demo' := match demo_messages sess !! key with
                | Some _ => demo_messages sess
                | None => <[key := demo_seed user_id d]> (demo_messages sess)
                end);
  assert (Hk : exists conv, demo' !! key = Some conv)
    by (unfold demo'; destruct (demo_messages sess !! key) eqn:E;
        [rewrite E | rewrite lookup_insert_eq]; eauto);
  destruct Hk as [conv Hk];
  rewrite Hk; simpl;
  exists (map (decorate_demo user_id) conv); (split; [reflexivity | split; [reflexivity |]]);
  unfold append_demo; rewrite Hk; rewrite !lookup_insert_eq, map_app; simpl;
  unfold decorate_demo at 2; simpl; rewrite string_eqb_refl; reflexivity.
Qed.

Lemma demo_send_then_read_witness :
  view_mode (demo_session 0) = ViewDm /\ current_dm_user (demo_session 0) = Some alex_id /\
  is_demo alex_id = true /\ 1 - last_refresh (demo_session 0) <= refresh_interval /\
  send_guard true "hi" = true /\
  exists rows,
    c_read (main_run empty_store (demo_session 0) "u1" 1 true "hi") = Some rows /\
    fst (fst (get_direct_messages (c_store (main_run empty_store (demo_session 0) "u1" 1 true "hi"))
                (demo_messages (c_session (main_run empty_store (demo_session 0) "u1" 1 true "hi")))
                "u1" alex_id 50)) =
    app rows [(demo_sent "u1" alex_id "hi" 1, Named "You" "you")].
Proof.
  assert (H1 : view_mode (demo_session 0) = ViewDm) by reflexivity.
  assert (H2 : current_dm_user (demo_session 0) = Some alex_id) by reflexivity.
  assert (H3 : is_demo alex_id = true) by reflexivity.
  assert (H4 : 1 - last_refresh (demo_session 0) <= refresh_interval)
    by (unfold refresh_interval; simpl; lia).
  assert (H5 : send_guard true "hi" = true) by reflexivity.
  split; [exact H1 | split; [exact H2 | split; [exact H3 | split; [exact H4 | split; [exact H5 |]]]]].
  destruct (demo_send_then_read empty_store (demo_session 0) "u1" alex_id 1 "hi" 50
              H1 H2 H3 H4 H5) as [rows [Hr [_ He]]].
  exists rows. split; [exact Hr | exact He].
Defined.

(** X23: when a channel holds fewer messages than the read limit, all
    dated strictly before the send, a successful [send_message] shows no
    error, stores the stripped text, and the next read of the channel
    lists the channel's earlier messages, in [created_at] order, followed
    by the new one as the last row.  (Rows with equal [created_at] may
    come in any order: the statement fixes none.) *)
Theorem channel_post_then_read (s s' : store) (user_id ch content : string) (now : Z)
  (lim : nat) (m : message) (errs : list string) :
  send_message s user_id ch content now = (Some m, s', errs) ->
  (forall x, In x (messages s) -> msg_channel x = Some ch -> msg_created x < now) ->
  (length (List.filter (fun x => opt_eqb (msg_channel x) (Some ch)) (messages s)) < lim)%nat ->
  errs = [] /\ msg_content m = strip content /\ msg_channel m = Some ch /\
  exists older,
    map fst (fst (get_channel_messages s' ch lim)) = app older [m] /\
    Permutation older (List.filter (fun x => opt_eqb (msg_channel x) (Some ch)) (messages s)) /\
    Sorted le_created older /\
    (forall x, In x older -> msg_created x < msg_created m).
Proof.
  intros Hsend Hnow Hlen.
  assert (Hle : forall x, In x (messages s) -> msg_channel x = Some ch -> msg_created x <= now)
    by (intros x Hx Hc; specialize (Hnow x Hx Hc); lia).
  rewrite (post_listed_last s s' user_id ch content now lim m errs Hsend Hle Hlen).
  unfold send_message, insert_message in Hsend.
  destruct (down s TMessages) eqn:Hd; [discriminate |].
  injection Hsend as <- _ <-.
  split; [reflexivity | split; [reflexivity | split; [reflexivity |]]].
  eexists. split; [reflexivity |]. split; [apply order_by_created_perm |].
  split; [apply order_by_created_sorted |].
  intros x Hx. apply (proj1 (in_order_by_created _ _)) in Hx.
  apply List.filter_In in Hx as [Hx Hc]. simpl. apply Hnow; [exact Hx |].
  destruct (msg_channel x) as [c |]; simpl in Hc; [| discriminate].
  apply String.eqb_eq in Hc. now subst.
Qed.

Lemma channel_post_then_read_witness :
  send_message busy_channel_store "u1" "c1" " hi " 5 =
    (Some (mkMessage "msg-3" "u1" (Some "c1") None "hi" "text" 5),
     snd (fst (send_message busy_channel_store "u1" "c1" " hi " 5)), []) /\
  (forall x, In x (messages busy_channel_store) -> msg_channel x = Some "c1" ->
             msg_created x < 5) /\
  (length (List.filter (fun x => opt_eqb (msg_channel x) (Some "c1"))
             (messages busy_channel_store)) < 50)%nat /\
  length (fst (get_channel_messages
                (snd (fst (send_message busy_channel_store "u1" "c1" " hi " 5))) "c1" 50)) = 3%nat /\
  List.last (map fst (fst (get_channel_messages
         (snd (fst (send_message busy_channel_store "u1" "c1" " hi " 5))) "c1" 50)))
       (mkMessage "" "" None None "" "" 0) =
  mkMessage "msg-3" "u1" (Some "c1") None "hi" "text" 5.
Proof.
  assert (H1 : send_message busy_channel_store "u1" "c1" " hi " 5 =
    (Some (mkMessage "msg-3" "u1" (Some "c1") None "hi" "text" 5),
     snd (fst (send_message busy_channel_store "u1" "c1" " hi " 5)), [])) by reflexivity.
  assert (H2 : forall x, In x (messages busy_channel_store) -> msg_channel x = Some "c1" ->
                         msg_created x < 5).
  { intros x Hx Hc. simpl in Hx.
    destruct Hx as [<- | [<- | [<- | []]]]; simpl in *; [lia | lia | discriminate]. }
  assert (H3 : (length (List.filter (fun x => opt_eqb (msg_channel x) (Some "c1"))
                          (messages busy_channel_store)) < 50)%nat) by (vm_compute; lia).
  split; [exact H1 | split; [exact H2 | split; [exact H3 |]]].
  destruct (channel_post_then_read busy_channel_store _ "u1" "c1" " hi " 5 50 _ _ H1 H2 H3)
    as [_ [_ [_ [older [He [Hp _]]]]]].
  split.
  - rewrite <- (length_map fst), He, length_app, (Permutation_length Hp). vm_compute. reflexivity.
  - rewrite He, List.last_last. reflexivity.
Defined.

Lemma existsb_member_extend (l1 l2 : list (string * string)) (y um : string * string) :
  (forall x, In x l1 <-> In x l2 \/ x = y) -> um <> y ->
  existsb (same_member um) l1 = existsb (same_member um) l2.
Proof.
  intros H Hne. apply Bool.eq_iff_eq_true. rewrite !existsb_member, H.
  split; [intros [Hin | Heq]; [exact Hin | contradiction] | now left].
Qed.

(** X24: with the channels and members tables up, after [join_channel]
    on an existing channel the user finds it among their channels, no
    error is shown, and every other user's channel list is unchanged. *)
Theorem join_then_list (s : store) (user_id : string) (c : channel_row) :
  down s TChannels = false -> down s TMembers = false -> In c (channels s) ->
  let '(_, s', errs) := join_channel s user_id (ch_id c) in
  In c (fst (get_user_channels s' user_id)) /\ errs = [] /\
  (forall other, other <> user_id -> get_user_channels s' other = get_user_channels s other).
Proof.
  intros Hc Hm Hin.
  pose proof (join_channel_member s user_id (ch_id c) Hm) as J.
  destruct (join_channel s user_id (ch_id c)) as [[ok s'] errs].
  destruct J as [Hmem [He [Hiff [Hch [Hd _]]]]].
  split; [| split; [exact He |]].
  - apply get_user_channels_in; rewrite ?Hd; try assumption.
    rewrite Hch. now split.
  - intros other Hne. unfold get_user_channels. rewrite Hd, Hch.
    destruct (down s TChannels || down s TMembers)%bool; [reflexivity |].
    f_equal. apply List.filter_ext. intros c'.
    apply (existsb_member_extend _ _ (user_id, ch_id c) _ Hiff).
    intros Heq. injection Heq as Heq _. contradiction.
Qed.

Lemma join_then_list_witness :
  down general_store TChannels = false /\ down general_store TMembers = false /\
  In (mkChannel "c1" "1" "general") (channels general_store) /\
  In (mkChannel "c1" "1" "general")
    (fst (get_user_channels (snd (fst (join_channel general_store "u1" "c1"))) "u1")).
Proof.
  assert (H1 : down general_store TChannels = false) by reflexivity.
  assert (H2 : down general_store TMembers = false) by reflexivity.
  assert (H3 : In (mkChannel "c1" "1" "general") (channels general_store)) by (now left).
  split; [exact H1 | split; [exact H2 | split; [exact H3 |]]].
  pose proof (join_then_list general_store "u1" (mkChannel "c1" "1" "general") H1 H2 H3) as J.
  simpl ch_id in J.
  destruct (join_channel general_store "u1" "c1") as [[ok s'] errs].
  exact (proj1 J).
Defined.
